(** * pyUSID.io.io_utils: quantity formatting and parsing

    A shallow embedding of [format_quantity], [format_time], [format_size]
    and [formatted_str_to_number] from [pyUSID/io/io_utils.py], together
    with the fragment of Python and numpy these four functions run on.

    Python values.  Numbers are Python [int]s (unbounded, [Z]) and
    [float]s (IEEE 754 binary64, the kernel's primitive floats, so [/] and
    [*] round exactly as CPython's do).  Arguments are atoms ([None], a
    number, a [str]) or flat containers of atoms (list, tuple, 1-d numpy
    array, generator, dict).  A numpy scalar is modelled by the Python
    number of the same value: the two compare and divide alike when the
    numbers are held exactly by binary64 and the divisor is not zero;
    beyond that numpy works in binary64 where Python compares exactly, so
    the properties that depend on the exact order are stated where the
    two agree.  Texts are ASCII.  Exceptions are values of [exn]; a call
    returns [Ok v] or [Raise e].  Python 3 semantics throughout. *)

From Stdlib Require Import ZArith QArith Qabs Bool List String Ascii Lia Lqa.
From Stdlib Require Import PrimFloat SpecFloat FloatOps FloatAxioms.
Import ListNotations.

Set Warnings "-inexact-float".

Local Open Scope Z_scope.

(** ** Exceptions and results *)

Inductive exn : Type :=
| TypeError (msg : string)
| ValueError (msg : string)
| IndexError (msg : string)
| KeyError
| ZeroDivisionError (msg : string)
| OverflowError (msg : string).

Inductive result (A : Type) : Type :=
| Ok (a : A)
| Raise (e : exn).

Arguments Ok {A} a.
Arguments Raise {A} e.

Definition bind {A B : Type} (c : result A) (k : A -> result B) : result B :=
  match c with
  | Ok a => k a
  | Raise e => Raise e
  end.

Declare Scope py_scope.
Delimit Scope py_scope with py.
Notation "x <- c ;; k" := (bind c (fun x => k))
  (at level 61, c at next level, right associativity) : py_scope.
Local Open Scope py_scope.

(** ** Python values *)

Inductive num : Type :=
| Int (z : Z)
| Float (f : float).

Inductive atom : Type :=
| ANone
| ANum (n : num)
| AStr (s : string).

Inductive pyobj : Type :=
| Atom (a : atom)
| PyList (xs : list atom)
| PyTuple (xs : list atom)
| PyArray (xs : list num)
| PyGen (xs : list atom)
| PyDict (kvs : list (atom * atom)).

Definition num_type_name (n : num) : string :=
  match n with
  | Int _ => "int"
  | Float _ => "float"
  end.

Definition atom_type_name (a : atom) : string :=
  match a with
  | ANone => "NoneType"
  | ANum n => num_type_name n
  | AStr _ => "str"
  end.

Definition type_name (o : pyobj) : string :=
  match o with
  | Atom a => atom_type_name a
  | PyList _ => "list"
  | PyTuple _ => "tuple"
  | PyArray _ => "numpy.ndarray"
  | PyGen _ => "generator"
  | PyDict _ => "dict"
  end.

(** ** Exact values of numbers

    Every [int] and every finite [float] is a rational; Python compares
    an [int] with a [float] by their exact values, and two floats by the
    IEEE order, which is the order of the exact values with NaN unordered
    and both zeros equal ([num_ltb_float], [num_leb_float] and
    [num_eqb_float] below). *)

Inductive xreal : Type :=
| XNaN
| XNegInf
| XFin (q : Q)
| XPosInf.

Definition SF2X (x : spec_float) : xreal :=
  match x with
  | S754_zero _ => XFin 0
  | S754_infinity s => if s then XNegInf else XPosInf
  | S754_nan => XNaN
  | S754_finite s m e =>
      let mz := if s then Z.neg m else Z.pos m in
      XFin (if 0 <=? e then inject_Z (mz * 2 ^ e)
            else Qmake mz (Z.to_pos (2 ^ (- e))))
  end.

Definition num_val (n : num) : xreal :=
  match n with
  | Int z => XFin (inject_Z z)
  | Float f => SF2X (Prim2SF f)
  end.

Definition xlt (x y : xreal) : bool :=
  match x, y with
  | XNaN, _ | _, XNaN => false
  | XNegInf, XNegInf => false
  | XNegInf, _ => true
  | XFin _, XNegInf => false
  | XFin q, XFin r => match Qcompare q r with Lt => true | _ => false end
  | XFin _, XPosInf => true
  | XPosInf, _ => false
  end.

Definition xle (x y : xreal) : bool :=
  match x, y with
  | XNaN, _ | _, XNaN => false
  | XNegInf, _ => true
  | XFin _, XNegInf => false
  | XFin q, XFin r => match Qcompare q r with Gt => false | _ => true end
  | XFin _, XPosInf => true
  | XPosInf, XPosInf => true
  | XPosInf, _ => false
  end.

Definition xeq (x y : xreal) : bool :=
  match x, y with
  | XNegInf, XNegInf | XPosInf, XPosInf => true
  | XFin q, XFin r => match Qcompare q r with Eq => true | _ => false end
  | _, _ => false
  end.

(** [a < b], [a <= b] and [a == b] on numbers. *)
Definition num_ltb (a b : num) : bool := xlt (num_val a) (num_val b).
Definition num_leb (a b : num) : bool := xle (num_val a) (num_val b).
Definition num_eqb (a b : num) : bool := xeq (num_val a) (num_val b).

(** ** Arithmetic *)

(** [float(z)] for an int: the nearest binary64, ties to even. *)
Definition Z2SF (z : Z) : spec_float := binary_normalize prec emax z 0 false.

Definition int_to_float (z : Z) : result float :=
  let f := SF2Prim (Z2SF z) in
  if is_infinity f
  then Raise (OverflowError "int too large to convert to float")
  else Ok f.

Definition to_float (n : num) : result float :=
  match n with
  | Int z => int_to_float z
  | Float f => Ok f
  end.

(** An int as an exact, not normalised, binary float. *)
Definition Z2SF_exact (z : Z) : spec_float :=
  match z with
  | Z0 => S754_zero false
  | Zpos p => S754_finite false p 0
  | Zneg p => S754_finite true p 0
  end.

(** [a / b] with true division: the correctly rounded quotient of two
    ints, the binary64 quotient otherwise. *)
Definition py_truediv (a b : num) : result float :=
  match a, b with
  | Int x, Int y =>
      if y =? 0 then Raise (ZeroDivisionError "division by zero")
      else
        let f := SF2Prim (SFdiv prec emax (Z2SF_exact x) (Z2SF_exact y)) in
        if is_infinity f
        then Raise (OverflowError "integer division result too large for a float")
        else Ok f
  | _, _ =>
      x <- to_float a ;;
      y <- to_float b ;;
      if PrimFloat.eqb y 0%float
      then Raise (ZeroDivisionError "float division by zero")
      else Ok (x / y)%float
  end.

(** [a * b]. *)
Definition py_mul (a b : num) : result num :=
  match a, b with
  | Int x, Int y => Ok (Int (x * y))
  | _, _ =>
      x <- to_float a ;;
      y <- to_float b ;;
      Ok (Float (x * y)%float)
  end.

(** ** numpy: [np.round] on a binary64

    [np.round(x, decimals)] multiplies by [10 ** decimals], rounds to the
    nearest integer with ties to even ([np.rint]) and divides again; for
    negative [decimals] it divides first and multiplies after. *)

Definition div_half_even (a b : Z) : Z :=
  let q := a / b in
  match 2 * (a mod b) ?= b with
  | Lt => q
  | Gt => q + 1
  | Eq => if Z.even q then q else q + 1
  end.

Definition rint (x : float) : float :=
  match Prim2SF x with
  | S754_finite s m e =>
      if 0 <=? e then x
      else
        let n := div_half_even (Z.pos m) (2 ^ (- e)) in
        SF2Prim (binary_normalize prec emax (if s then - n else n) 0 s)
  | _ => x
  end.

Fixpoint times_ten (n : nat) (x : float) : float :=
  match n with
  | O => x
  | S n' => times_ten n' (x * 10)%float
  end.

(** numpy's [power_of_ten]: a table up to [1e8], then [1e9] multiplied by
    [10.] once for each further digit (exact up to [1e22]). *)
Definition power_of_ten (d : Z) : float :=
  if d <? 9 then SF2Prim (Z2SF (10 ^ d))
  else times_ten (Z.to_nat (d - 9)) 1e9%float.

Definition np_round (x : float) (decimals : Z) : float :=
  if decimals =? 0 then rint x
  else if 0 <? decimals then
    let f := power_of_ten decimals in (rint (x * f) / f)%float
  else
    let f := power_of_ten (- decimals) in (rint (x / f) * f)%float.

(** [1024 ** np.arange(n, dtype=np.int64)]: powers wrap around in 64 bits. *)
Definition int64_wrap (z : Z) : Z := (z + 2 ^ 63) mod 2 ^ 64 - 2 ^ 63.

Definition arange (n : nat) : list Z := map Z.of_nat (seq 0 n).

Definition np_power_int64 (base : Z) (exps : list Z) : list num :=
  map (fun k => Int (int64_wrap (base ^ k))) exps.

(** ** Strings *)

Local Open Scope string_scope.
Local Open Scope Z_scope.

Definition dquote : ascii := ascii_of_nat 34.

Definition digit_char (d : Z) : ascii := ascii_of_N (48 + Z.to_N d).

Fixpoint Z_to_string_aux (fuel : nat) (n : Z) (acc : string) : string :=
  let acc' := String (digit_char (n mod 10)) acc in
  match fuel with
  | O => acc'
  | S fuel' => if n <? 10 then acc' else Z_to_string_aux fuel' (n / 10) acc'
  end.

(** The decimal digits of a natural number. *)
Definition Z_to_string (n : Z) : string :=
  Z_to_string_aux (Z.to_nat (Z.log2 n)) n "".

Fixpoint zeros (n : nat) : string :=
  match n with
  | O => ""
  | S n' => String "0" (zeros n')
  end.

Fixpoint string_rev (s : string) : string :=
  match s with
  | "" => ""
  | String c s' => string_rev s' ++ String c ""
  end.

Fixpoint drop_while (p : ascii -> bool) (s : string) : string :=
  match s with
  | "" => ""
  | String c s' => if p c then drop_while p s' else s
  end.

Definition rstrip_zeros (s : string) : string :=
  match string_rev (drop_while (Ascii.eqb "0") (string_rev s)) with
  | "" => "0"
  | r => r
  end.

(** ** [str(x)] of a binary64: the shortest decimal that reads back as [x]

    [x = m * 2^e] is written as the fraction [(a, b)]; [decpt] is the
    least [t] with [x < 10^t]; the digits are those of [x] rounded to [n]
    significant digits for the first [n] in [1..17] that reads back as [x].
    The layout is that of CPython's [repr]: exponent notation when
    [decpt <= -4] or [decpt > 16]. *)

Definition frac_of (m : positive) (e : Z) : Z * Z :=
  if 0 <=? e then (Z.pos m * 2 ^ e, 1) else (Z.pos m, 2 ^ (- e)).

Definition below_pow10 (ab : Z * Z) (t : Z) : bool :=
  let (a, b) := ab in
  if 0 <=? t then a <? b * 10 ^ t else a * 10 ^ (- t) <? b.

Fixpoint find_decpt (fuel : nat) (ab : Z * Z) (t : Z) : Z :=
  match fuel with
  | O => t
  | S fuel' => if below_pow10 ab t then t else find_decpt fuel' ab (t + 1)
  end.

Definition round_digits (ab : Z * Z) (t n : Z) : Z * Z :=
  let (a, b) := ab in
  let s := n - t in
  let D := if 0 <=? s then div_half_even (a * 10 ^ s) b
           else div_half_even a (b * 10 ^ (- s)) in
  if D =? 10 ^ n then (10 ^ (n - 1), t + 1) else (D, t).

(** The binary64 nearest to [(-1)^neg * D * 10^k]. *)
Definition SF_of_decimal (neg : bool) (D k : Z) : spec_float :=
  match D with
  | Z.pos p =>
      if 0 <=? k
      then binary_normalize prec emax
             ((if neg then Z.neg p else Z.pos p) * 10 ^ k) 0 neg
      else SFdiv prec emax (S754_finite neg p 0)
             (S754_finite false (Z.to_pos (10 ^ (- k))) 0)
  | _ => S754_zero neg
  end.

Fixpoint shortest (fuel : nat) (x : spec_float) (ab : Z * Z) (t n : Z)
  : Z * Z :=
  let (D, t') := round_digits ab t n in
  match fuel with
  | O => (D, t')
  | S fuel' =>
      if SFeqb (SF_of_decimal false D (t' - n)) x then (D, t')
      else shortest fuel' x ab t (n + 1)
  end.

Definition pad2 (s : string) : string :=
  if (String.length s <? 2)%nat then "0" ++ s else s.

Definition repr_layout (ds : string) (decpt : Z) : string :=
  let n := Z.of_nat (String.length ds) in
  if (decpt <=? -4) || (16 <? decpt) then
    let e := decpt - 1 in
    let frac := substring 1 (String.length ds - 1) ds in
    substring 0 1 ds ++ (if 1 <? n then "." ++ frac else "")
      ++ "e" ++ (if e <? 0 then "-" else "+") ++ pad2 (Z_to_string (Z.abs e))
  else if decpt <=? 0 then "0." ++ zeros (Z.to_nat (- decpt)) ++ ds
  else if decpt <? n then
    substring 0 (Z.to_nat decpt) ds ++ "."
      ++ substring (Z.to_nat decpt) (String.length ds - Z.to_nat decpt) ds
  else ds ++ zeros (Z.to_nat (decpt - n)) ++ ".0".

Definition float_str (x : float) : string :=
  match Prim2SF x with
  | S754_zero s => if s then "-0.0" else "0.0"
  | S754_infinity s => if s then "-inf" else "inf"
  | S754_nan => "nan"
  | S754_finite s m e =>
      let ab := frac_of m e in
      let t := find_decpt 640 ab (-324) in
      let (D, decpt) := shortest 16 (S754_finite false m e) ab t 1 in
      (if s then "-" else "") ++ repr_layout (rstrip_zeros (Z_to_string D)) decpt
  end.

(** ** [float(s)]: reading a decimal literal

    Accepted: optional surrounding whitespace, an optional sign, digits
    with an optional point (at least one digit), an optional exponent;
    or [inf], [infinity], [nan] in any case.  An underscore may stand
    between two digits.  The result is the binary64 nearest to the
    decimal (ties to even). *)

Definition is_space (c : ascii) : bool :=
  let n := nat_of_ascii c in
  (Nat.eqb n 32 || (Nat.leb 9 n && Nat.leb n 13))%bool.

Definition is_digit (c : ascii) : bool :=
  let n := nat_of_ascii c in (Nat.leb 48 n && Nat.leb n 57)%bool.

Definition digit_val (c : ascii) : Z := Z.of_nat (nat_of_ascii c) - 48.

Definition strip (s : string) : string :=
  string_rev (drop_while is_space (string_rev (drop_while is_space s))).

Fixpoint take_digits (s : string) (acc cnt : Z) : Z * Z * string :=
  match s with
  | String c s' =>
      if is_digit c then take_digits s' (10 * acc + digit_val c) (cnt + 1)
      else (acc, cnt, s)
  | "" => (acc, cnt, "")
  end.

Definition take_sign (s : string) : bool * string :=
  match s with
  | String "-" s' => (true, s')
  | String "+" s' => (false, s')
  | _ => (false, s)
  end.

Definition parse_exponent (s : string) : option Z :=
  match s with
  | "" => Some 0
  | String c s' =>
      if (Ascii.eqb c "e" || Ascii.eqb c "E")%bool then
        let (eneg, s1) := take_sign s' in
        match take_digits s1 0 0 with
        | (ev, ne, "") =>
            if ne =? 0 then None else Some (if eneg then - ev else ev)
        | _ => None
        end
      else None
  end.

(** [Some (D, k)] when [s] is an unsigned literal of value [D * 10^k]. *)
Definition parse_decimal (s : string) : option (Z * Z) :=
  let '(ip, ni, s1) := take_digits s 0 0 in
  let '(D, nf, s2) :=
    match s1 with
    | String "." s' => take_digits s' ip 0
    | _ => (ip, 0, s1)
    end in
  if ni + nf =? 0 then None
  else match parse_exponent s2 with
       | Some ev => Some (D, ev - nf)
       | None => None
       end.

Definition to_lower (c : ascii) : ascii :=
  let n := nat_of_ascii c in
  if (Nat.leb 65 n && Nat.leb n 90)%bool then ascii_of_nat (n + 32) else c.

Fixpoint lower (s : string) : string :=
  match s with
  | "" => ""
  | String c s' => String (to_lower c) (lower s')
  end.

(** Every underscore of [s] follows a digit and is followed by a digit;
    [prev] is the character before [s]. *)
Fixpoint underscores_ok (prev : ascii) (s : string) : bool :=
  match s with
  | "" => negb (Ascii.eqb prev "_")
  | String c s' =>
      ((if Ascii.eqb c "_" then is_digit prev
        else (negb (Ascii.eqb prev "_") || is_digit c))
       && underscores_ok c s')%bool
  end.

Fixpoint remove_underscores (s : string) : string :=
  match s with
  | "" => ""
  | String c s' =>
      if Ascii.eqb c "_" then remove_underscores s'
      else String c (remove_underscores s')
  end.

Fixpoint contains (c : ascii) (s : string) : bool :=
  match s with
  | "" => false
  | String a s' => (Ascii.eqb a c || contains c s')%bool
  end.

Definition hex_digit (n : nat) : ascii :=
  if Nat.ltb n 10 then ascii_of_nat (48 + n) else ascii_of_nat (87 + n).

Definition backslash : ascii := ascii_of_nat 92.

(** One character inside [repr(s)], between the quotes [quote]. *)
Definition repr_char (quote c : ascii) : string :=
  let n := nat_of_ascii c in
  if (Ascii.eqb c backslash || Ascii.eqb c quote)%bool
  then String backslash (String c "")
  else if Nat.eqb n 9 then String backslash "t"
  else if Nat.eqb n 10 then String backslash "n"
  else if Nat.eqb n 13 then String backslash "r"
  else if (Nat.ltb n 32 || Nat.eqb n 127)%bool
  then String backslash
         (String "x" (String (hex_digit (n / 16))
                        (String (hex_digit (n mod 16)) "")))
  else String c "".

Fixpoint repr_chars (quote : ascii) (s : string) : string :=
  match s with
  | "" => ""
  | String c s' => repr_char quote c ++ repr_chars quote s'
  end.

(** [repr(s)] of an ASCII text: in double quotes when it holds a single
    quote and no double quote, in single quotes otherwise. *)
Definition str_repr (s : string) : string :=
  let quote :=
    if (contains "'" s && negb (contains dquote s))%bool then dquote
    else "'"%char in
  String quote (repr_chars quote s ++ String quote "").

Definition py_float (s : string) : result float :=
  let stripped := strip s in
  let (neg, body) := take_sign (remove_underscores stripped) in
  if negb (underscores_ok Ascii.zero stripped)
  then Raise (ValueError ("could not convert string to float: " ++ str_repr s))
  else if (String.eqb (lower body) "inf"
           || String.eqb (lower body) "infinity")%bool
  then Ok (if neg then neg_infinity else infinity)
  else if String.eqb (lower body) "nan" then Ok nan
  else match parse_decimal body with
       | Some (D, k) => Ok (SF2Prim (SF_of_decimal neg D k))
       | None =>
           Raise (ValueError
                    ("could not convert string to float: " ++ str_repr s))
       end.

(** ** [s.split(sep)] and [str.format] *)

Fixpoint is_prefix (p s : string) : bool :=
  match p, s with
  | "", _ => true
  | String a p', String b s' => (Ascii.eqb a b && is_prefix p' s')%bool
  | _, "" => false
  end.

(** [skip] counts the characters of a separator still to be passed over;
    [cur] is the current component, reversed. *)
Fixpoint split_go (sep s : string) (skip : nat) (cur : string) : list string :=
  match s with
  | "" => [string_rev cur]
  | String c s' =>
      match skip with
      | S k => split_go sep s' k cur
      | O =>
          if is_prefix sep s
          then string_rev cur :: split_go sep s' (String.length sep - 1) ""
          else split_go sep s' 0 (String c cur)
      end
  end.

Definition str_split (s sep : string) : result (list string) :=
  match sep with
  | "" => Raise (ValueError "empty separator")
  | _ => Ok (split_go sep s 0 "")
  end.

(** ['{} {}'.format(a, b)] on the texts of [a] and [b]. *)
Definition format2 (a b : string) : string := a ++ " " ++ b.

(** ** Built-ins on containers *)

(** [isinstance(o, collections.Iterable)]. *)
Definition is_iterable (o : pyobj) : bool :=
  match o with
  | Atom (AStr _) => true
  | Atom _ => false
  | _ => true
  end.

Definition str_len (s : string) : Z := Z.of_nat (String.length s).
Definition list_len {A : Type} (xs : list A) : Z := Z.of_nat (List.length xs).

(** [len(o)]. *)
Definition py_len (o : pyobj) : result Z :=
  match o with
  | Atom (AStr s) => Ok (str_len s)
  | PyList xs | PyTuple xs => Ok (list_len xs)
  | PyArray xs => Ok (list_len xs)
  | PyDict kvs => Ok (list_len kvs)
  | _ => Raise (TypeError ("object of type '" ++ type_name o ++ "' has no len()"))
  end.

Fixpoint chars (s : string) : list atom :=
  match s with
  | "" => []
  | String c s' => AStr (String c "") :: chars s'
  end.

(** The items [for x in o] goes through; a dict yields its keys. *)
Definition py_iter (o : pyobj) : result (list atom) :=
  match o with
  | Atom (AStr s) => Ok (chars s)
  | PyList xs | PyTuple xs | PyGen xs => Ok xs
  | PyArray xs => Ok (map ANum xs)
  | PyDict kvs => Ok (map fst kvs)
  | _ => Raise (TypeError ("'" ++ type_name o ++ "' object is not iterable"))
  end.

(** [xs[i]] on a sequence; a negative index counts from the end, and
    [oob] is the text of the IndexError. *)
Definition seq_getitem {A : Type} (oob : string) (xs : list A) (i : Z)
  : result A :=
  let j := if i <? 0 then i + list_len xs else i in
  if j <? 0 then Raise (IndexError oob)
  else match nth_error xs (Z.to_nat j) with
       | Some x => Ok x
       | None => Raise (IndexError oob)
       end.

Definition int_str (z : Z) : string :=
  if z <? 0 then "-" ++ Z_to_string (- z) else Z_to_string z.

Definition array_oob (i n : Z) : string :=
  "index " ++ int_str i ++ " is out of bounds for axis 0 with size "
    ++ int_str n.

Definition atom_eqb (a b : atom) : bool :=
  match a, b with
  | ANone, ANone => true
  | ANum x, ANum y => num_eqb x y
  | AStr s, AStr t => String.eqb s t
  | _, _ => false
  end.

Fixpoint dict_get (kvs : list (atom * atom)) (k : atom) : result atom :=
  match kvs with
  | [] => Raise KeyError
  | (k', v) :: rest => if atom_eqb k' k then Ok v else dict_get rest k
  end.

(** [o[i]] for an int [i]. *)
Definition py_getitem (o : pyobj) (i : Z) : result atom :=
  match o with
  | Atom (AStr s) => seq_getitem "string index out of range" (chars s) i
  | PyList xs => seq_getitem "list index out of range" xs i
  | PyTuple xs => seq_getitem "tuple index out of range" xs i
  | PyArray xs => seq_getitem (array_oob i (list_len xs)) (map ANum xs) i
  | PyDict kvs => dict_get kvs (ANum (Int i))
  | _ => Raise (TypeError ("'" ++ type_name o ++ "' object is not subscriptable"))
  end.

(** [value < val] and [value / val] for a number and an item. *)
Definition py_lt (value : num) (val : atom) : result bool :=
  match val with
  | ANum n => Ok (num_ltb value n)
  | _ => Raise (TypeError ("'<' not supported between instances of '"
                             ++ num_type_name value ++ "' and '"
                             ++ atom_type_name val ++ "'"))
  end.

Definition py_div (value : num) (val : atom) : result float :=
  match val with
  | ANum n => py_truediv value n
  | _ => Raise (TypeError ("unsupported operand type(s) for /: '"
                             ++ num_type_name value ++ "' and '"
                             ++ atom_type_name val ++ "'"))
  end.

(** [max(0, index)] where [index] is an int or [None]. *)
Definition py_max0 (index : option Z) : result Z :=
  match index with
  | Some i => Ok (Z.max 0 i)
  | None => Raise (TypeError
                     "'>' not supported between instances of 'NoneType' and 'int'")
  end.

(** [[x] = xs]. *)
Definition unpack1 {A : Type} (xs : list A) : result A :=
  match xs with
  | [x] => Ok x
  | [] => Raise (ValueError "not enough values to unpack (expected 1, got 0)")
  | _ => Raise (ValueError "too many values to unpack (expected 1)")
  end.

(** ** pyUSID.io.dtype_utils

    [validate_list_of_strings] and [validate_string_args] are imported
    from [dtype_utils], which is not among the sources: they are taken as
    parameters.  Each returns the cleaned strings or raises. *)

Class dtype_utils : Type := {
  validate_list_of_strings : pyobj -> string -> result (list string);
  validate_string_args : pyobj -> string -> result (list string)
}.

(** ** pyUSID.io.io_utils *)

Section io_utils.

Context {DU : dtype_utils}.

(** The [for index, val in enumerate(factors)] loop of [format_quantity]:
    [i] is the position of the next item, [index] the loop variable. *)
Fixpoint scan (value : num) (factors : list atom) (i : Z) (index : option Z)
  : result (option Z) :=
  match factors with
  | [] => Ok index
  | val :: rest =>
      b <- py_lt value val ;;
      if b then Ok (Some (i - 1))
      else scan value rest (i + 1) (Some i)
  end.

(** Lines 140-147: the index of the unit. *)
Definition select_index (value : num) (factors : pyobj) : result Z :=
  items <- py_iter factors ;;
  index <- scan value items 0 None ;;
  py_max0 index.

(** Line 149: the text for the unit at [index]. *)
Definition render (value : num) (unit_names : list string) (factors : pyobj)
    (decimals index : Z) : result string :=
  val <- py_getitem factors index ;;
  q <- py_div value val ;;
  name <- seq_getitem "list index out of range" unit_names index ;;
  Ok (format2 (float_str (np_round q decimals)) name).

Definition format_quantity (value : num) (unit_names factors : pyobj)
    (decimals : Z) : result string :=
  if negb (is_iterable unit_names)
  then Raise (TypeError "unit_names must an Iterable")
  else if negb (is_iterable factors)
  then Raise (TypeError "factors must be an Iterable")
  else
    n1 <- py_len unit_names ;;
    n2 <- py_len factors ;;
    if negb (n1 =? n2)
    then Raise (ValueError "unit_names and factors must be of the same length")
    else
      unit_names <- validate_list_of_strings unit_names "unit_names" ;;
      index <- select_index value factors ;;
      render value unit_names factors decimals index.

Definition time_units : list atom :=
  [AStr "msec"; AStr "sec"; AStr "mins"; AStr "hours"].

Definition time_factors : list atom :=
  [ANum (Float 0.001); ANum (Int 1); ANum (Int 60); ANum (Int 3600)].

Definition format_time (time_in_seconds : num) (decimals : Z) : result string :=
  format_quantity time_in_seconds (PyList time_units) (PyList time_factors)
    decimals.

Definition size_units : list atom :=
  [AStr "bytes"; AStr "kB"; AStr "MB"; AStr "GB"; AStr "TB"].

Definition size_factors : list num :=
  np_power_int64 1024 (arange (List.length size_units)).

Definition format_size (size_in_bytes : num) (decimals : Z) : result string :=
  format_quantity size_in_bytes (PyList size_units) (PyArray size_factors)
    decimals.

(** [isinstance(o, (list, tuple))]: the items when it holds. *)
Definition list_or_tuple (o : pyobj) : option (list atom) :=
  match o with
  | PyList xs | PyTuple xs => Some xs
  | _ => None
  end.

(** [isinstance(a, Number)]: the number when it holds. *)
Definition as_number (a : atom) : option num :=
  match a with
  | ANum n => Some n
  | _ => None
  end.

(** [np.all([isinstance(_, Number) for _ in values])]: the numbers when
    it holds. *)
Fixpoint all_numbers (values : list atom) : option (list num) :=
  match values with
  | [] => Some []
  | a :: rest =>
      match as_number a, all_numbers rest with
      | Some n, Some ns => Some (n :: ns)
      | _, _ => None
      end
  end.

Definition format_error : exn :=
  ValueError ("String value should be of format "
                ++ String dquote "123.45<separator>Unit").

(** The [for unit_name, scaling in zip(...)] loop of
    [formatted_str_to_number]; falling off its end returns [None]. *)
Fixpoint lookup (pairs : list (string * num)) (components : list string)
  : result atom :=
  match pairs with
  | [] => Ok ANone
  | (unit_name, scaling) :: rest =>
      c1 <- seq_getitem "list index out of range" components 1 ;;
      if String.eqb unit_name c1 then
        c0 <- seq_getitem "list index out of range" components 0 ;;
        x <- py_float c0 ;;
        r <- py_mul scaling (Float x) ;;
        Ok (ANum r)
      else lookup rest components
  end.

Definition formatted_str_to_number
    (str_val magnitude_names magnitude_values separator : pyobj)
  : result atom :=
  cleaned <- validate_string_args str_val "str_val" ;;
  str_val <- unpack1 cleaned ;;
  magnitude_names <-
    validate_list_of_strings magnitude_names "magnitude_names" ;;
  match separator with
  | Atom (AStr sep) =>
      match list_or_tuple magnitude_values with
      | None => Raise (TypeError "magnitude_values must be an Iterable")
      | Some values =>
          match all_numbers values with
          | None => Raise (TypeError "magnitude_values should contain numbers")
          | Some scalings =>
              if negb (list_len magnitude_names =? list_len values)
              then Raise (ValueError
                     "magnitude_names and magnitude_values should be of the same length")
              else
                components <- str_split str_val sep ;;
                if negb (list_len components =? 2)
                then Raise format_error
                else lookup (combine magnitude_names scalings) components
          end
      end
  | _ => Raise (TypeError "separator must be a string")
  end.

End io_utils.

(** ** A stand-in for [dtype_utils] *)

Fixpoint strings_of (what : string) (xs : list atom) : result (list string) :=
  match xs with
  | [] => Ok []
  | AStr s :: rest =>
      if String.eqb s ""
      then Raise (ValueError (what ++ " should not be an empty string"))
      else rest' <- strings_of what rest ;; Ok (s :: rest')
  | _ :: _ => Raise (TypeError (what ++ " should be a string"))
  end.

(** Modelled from the spec: [dtype_utils.validate_list_of_strings] is not
    among the sources.  The spec's unit table is an ordered sequence of
    non-empty strings and a wrong type is an [InvalidArgument] raised
    before any computation: a list or tuple of non-empty strings is
    returned as it is, anything else raises. *)
Definition spec_validate_list_of_strings (o : pyobj) (what : string)
  : result (list string) :=
  match list_or_tuple o with
  | Some xs => strings_of what xs
  | None => Raise (TypeError
                     (what ++ " should be a string or list / tuple of strings"))
  end.

(** Modelled from the spec: [dtype_utils.validate_string_args] is not
    among the sources.  The parser's text is a string; a non-empty string
    is returned as the one cleaned argument, anything else raises. *)
Definition spec_validate_string_args (o : pyobj) (what : string)
  : result (list string) :=
  match o with
  | Atom a => strings_of what [a]
  | _ => Raise (TypeError (what ++ " should be a string"))
  end.

#[local] Instance spec_dtype_utils : dtype_utils := {
  validate_list_of_strings := spec_validate_list_of_strings;
  validate_string_args := spec_validate_string_args
}.

(** ** Vocabulary of the properties *)


(** [factors] is a list, a tuple or a numpy array holding the numbers [fs]. *)
Definition holds_numbers (factors : pyobj) (fs : list num) : Prop :=
  factors = PyList (map ANum fs) \/ factors = PyTuple (map ANum fs)
  \/ factors = PyArray fs.



(** Format with the default separator, then parse with the same table. *)
Definition round_trip {DU : dtype_utils} (value : num)
    (unit_names factors : pyobj) (decimals : Z) : result atom :=
  s <- format_quantity value unit_names factors decimals ;;
  formatted_str_to_number (Atom (AStr s)) unit_names factors (Atom (AStr " ")).



(** No character of [s] is [c]. *)
Fixpoint lacks (c : ascii) (s : string) : bool :=
  match s with
  | "" => true
  | String a s' => (negb (Ascii.eqb c a) && lacks c s')%bool
  end.

(** [isinstance(o, Sequence)], numpy arrays included: indexed by position. *)
Definition is_sequence (o : pyobj) : bool :=
  match o with
  | Atom (AStr _) | PyList _ | PyTuple _ | PyArray _ => true
  | _ => false
  end.

(** A finite binary64 [m * 2^e] as the integer [m * 2^(e + 1074)]: every
    finite binary64 is a multiple of [2^-1074]. *)
Definition SF_key (x : spec_float) : Z :=
  match x with
  | S754_finite s m e =>
      (if s then Z.neg m else Z.pos m) * 2 ^ (e + 1074)
  | _ => 0
  end.

Definition finite_or_zero (x : spec_float) : bool :=
  match x with
  | S754_finite _ _ _ | S754_zero _ => true
  | _ => false
  end.

(** The tables of the documented examples. *)
Definition sec_mins : pyobj := PyList [AStr "sec"; AStr "mins"].
Definition one_sixty : pyobj := PyList [ANum (Int 1); ANum (Int 60)].
Definition hertz : pyobj := PyList [AStr "Hz"; AStr "kHz"; AStr "MHz"].
Definition hertz_values : pyobj :=
  PyList [ANum (Int 1); ANum (Float 1e3); ANum (Float 1e6)].
Definition space : pyobj := Atom (AStr " ").

(** ** [time.strftime] and [get_time_stamp] *)

Record struct_time : Type := {
  tm_year : Z;
  tm_mon : Z;
  tm_mday : Z;
  tm_hour : Z;
  tm_min : Z;
  tm_sec : Z
}.

(** The last [w] decimal digits of [n], zero padded: C's [%0wd] for
    [0 <= n < 10^w]. *)
Fixpoint fixed_digits (w : nat) (n : Z) : string :=
  match w with
  | O => ""
  | S w' => fixed_digits w' (n / 10) ++ String (digit_char (n mod 10)) ""
  end.

(** The directives the time stamp uses. *)
Definition directive (c : ascii) (t : struct_time) : option string :=
  if Ascii.eqb c "Y" then Some (fixed_digits 4 (tm_year t))
  else if Ascii.eqb c "m" then Some (fixed_digits 2 (tm_mon t))
  else if Ascii.eqb c "d" then Some (fixed_digits 2 (tm_mday t))
  else if Ascii.eqb c "H" then Some (fixed_digits 2 (tm_hour t))
  else if Ascii.eqb c "M" then Some (fixed_digits 2 (tm_min t))
  else if Ascii.eqb c "S" then Some (fixed_digits 2 (tm_sec t))
  else None.

(** [strftime(format, t)]: a directive is replaced by its digits, any
    other character is copied. *)
Fixpoint strftime (format : string) (t : struct_time) : string :=
  match format with
  | "" => ""
  | String c rest =>
      match rest with
      | String d rest' =>
          if Ascii.eqb c "%" then
            match directive d t with
            | Some digits => digits ++ strftime rest' t
            | None => String c (strftime rest t)
            end
          else String c (strftime rest t)
      | "" => String c ""
      end
  end.

(** [get_time_stamp()], with the local time it reads as an argument. *)
Definition get_time_stamp (now : struct_time) : string :=
  strftime "%Y_%m_%d-%H_%M_%S" now.

(** A local time as the clock gives it, in a year of four digits. *)
Definition valid_time (t : struct_time) : Prop :=
  1000 <= tm_year t <= 9999 /\ 1 <= tm_mon t <= 12 /\ 1 <= tm_mday t <= 31 /\
  0 <= tm_hour t <= 23 /\ 0 <= tm_min t <= 59 /\ 0 <= tm_sec t <= 61.

Definition time_fields (t : struct_time) : list Z :=
  [tm_year t; tm_mon t; tm_mday t; tm_hour t; tm_min t; tm_sec t].

(** The order of two times, field by field from the year down. *)
Fixpoint lex_compare (xs ys : list Z) : comparison :=
  match xs, ys with
  | [], [] => Eq
  | [], _ :: _ => Lt
  | _ :: _, [] => Gt
  | x :: xs', y :: ys' =>
      match x ?= y with
      | Eq => lex_compare xs' ys'
      | c => c
      end
  end.

(** ** [check_ssh] and [file_dialog]

    What [file_dialog] finds around it is an argument: the environment
    variables, what importing PyQt5 and PyQt4 gives (a dialog that
    returns the user's choice, or nothing when the import fails) and the
    line the user types.  What it does to the user is the list of events
    it returns beside its result.  Failures inside Qt and the end of the
    input are not modelled. *)

Inductive event : Type :=
| Warned (message category : string)
| DialogShown (toolkit : string) (caption file_filter : pyobj)
| Prompted (prompt : string).

Definition io (A : Type) : Type := (list event * result A)%type.

Definition io_bind {A B : Type} (c : io A) (k : A -> io B) : io B :=
  match c with
  | (done, Ok a) => let (more, r) := k a in ((done ++ more)%list, r)
  | (done, Raise e) => (done, Raise e)
  end.

Record desktop : Type := {
  environ : list (string * string);
  PyQt5_dialog : option (pyobj -> pyobj -> string * string);
  PyQt4_dialog : option (pyobj -> pyobj -> string);
  typed : string
}.

(** [name in os.environ]. *)
Definition in_environ (name : string) (env : list (string * string)) : bool :=
  existsb (fun kv => String.eqb (fst kv) name) env.

Definition check_ssh (env : list (string * string)) : bool :=
  (in_environ "SSH_CLIENT" env || in_environ "SSH_TTY" env)%bool.

(** The second argument of [warnings.warn]: left out, a class of
    warnings, or some other object. *)
Inductive category : Type :=
| NoCategory
| WarningClass (name : string)
| NotAClass (o : pyobj).

(** [warn(message, category)]: a category that is no class of warnings
    is a TypeError. *)
Definition warn (message : string) (c : category) : io unit :=
  match c with
  | NoCategory => ([Warned message "UserWarning"], Ok tt)
  | WarningClass name => ([Warned message name], Ok tt)
  | NotAClass o =>
      ([], Raise (TypeError ("category must be a Warning subclass, not '"
                               ++ type_name o ++ "'")))
  end.

(** [param is None or isinstance(param, (str, unicode))]. *)
Definition None_or_str (param : pyobj) : bool :=
  match param with
  | Atom ANone | Atom (AStr _) => true
  | _ => false
  end.

Definition newline : string := String (ascii_of_nat 10) "".

Definition text_prompt : string :=
  "Enter path to datafile.  Raw Data (*.txt, *.mat, *.xls, *.xlsx) or Translated file (*.h5)".

(** [input(prompt)]. *)
Definition input (w : desktop) (prompt : string) : io string :=
  ([Prompted prompt], Ok (typed w)).

Definition file_dialog (w : desktop) (file_filter caption : pyobj) : io string :=
  if negb (forallb None_or_str [file_filter; caption])
  then ([], Raise (TypeError "param must be a string"))
  else if negb (check_ssh (environ w)) then
    match PyQt5_dialog w with
    | Some getOpenFileName =>
        ([DialogShown "PyQt5" caption file_filter],
         Ok (fst (getOpenFileName caption file_filter)))
    | None =>
        io_bind
          (warn ("The required package PyQt5 could not be imported." ++ newline)
             (NotAClass (Atom (AStr "The code will check for PyQt4."))))
          (fun _ =>
             match PyQt4_dialog w with
             | Some getOpenFileName =>
                 ([DialogShown "PyQt4" caption file_filter],
                  Ok (getOpenFileName caption file_filter))
             | None =>
                 io_bind
                   (warn "PyQt4 also not found.  Will use standard text input."
                      NoCategory)
                   (fun _ => input w text_prompt)
             end)
    end
  else input w text_prompt.

(** * Properties *)

(** ** The Python fragment on known results

    Each right-hand side is what CPython and numpy print or return. *)

Example float_str_samples :
  map float_str
    [0.5; 1.08; 1; 0; -0; 90; 1e16; 1e-5; 0.0001; 1.1; 5e-324;
     1.7976931348623157e308; 0.1 + 0.2; 123456789012345678; 1 / 3; 2.5e-7;
     1e21; 1e15; infinity; nan]%float
  = ["0.5"; "1.08"; "1.0"; "0.0"; "-0.0"; "90.0"; "1e+16"; "1e-05"; "0.0001";
     "1.1"; "5e-324"; "1.7976931348623157e+308"; "0.30000000000000004";
     "1.2345678901234568e+17"; "0.3333333333333333"; "2.5e-07"; "1e+21";
     "1000000000000000.0"; "inf"; "nan"].
Proof. vm_compute. reflexivity. Qed.

Example py_float_samples :
  map py_float ["1.5"; " 1.08 "; "-0.0"; "1e+16"; ".5"; "5."; "1e400"; "0.1e1"]
  = map Ok [1.5; 1.08; -0; 1e16; 0.5; 5; infinity; 1]%float.
Proof. vm_compute. reflexivity. Qed.

Example py_float_words_and_underscores :
  map py_float ["Inf"; "-INF"; "iNfInItY"; "NaN"; "+nan"; "1_000"; "1.5_0";
                "1e1_0"; "1.5e+1_0"; "+.5"; "-.5e1"; "1.e5"]
  = map Ok [infinity; neg_infinity; infinity; nan; nan; 1000; 1.5; 1e10;
            1.5e10; 0.5; -5; 1e5]%float.
Proof. vm_compute. reflexivity. Qed.

Example py_float_rejects :
  map py_float ["."; "1e"; "abc"; ""; "1.5 mins"; "1__0"; "_1"; "1_"; "1_.5";
                "1._5"; "1_e5"; "1e_5"; "in_f"; "++1"; "+ 1"; "e5"; "1e+";
                "0x10"; "infinit"; "nan1"]
  = map (fun s => Raise (ValueError
                           ("could not convert string to float: '" ++ s ++ "'")))
      ["."; "1e"; "abc"; ""; "1.5 mins"; "1__0"; "_1"; "1_"; "1_.5";
       "1._5"; "1_e5"; "1e_5"; "in_f"; "++1"; "+ 1"; "e5"; "1e+";
       "0x10"; "infinit"; "nan1"].
Proof. vm_compute. reflexivity. Qed.

Example str_repr_samples :
  map str_repr ["abc"; "it's"; "a" ++ String (ascii_of_nat 10) "b";
                "a" ++ String backslash "b"; String dquote "q";
                String Ascii.zero ""]
  = ["'abc'"; String dquote ("it's" ++ String dquote "");
     "'a" ++ String backslash "nb'";
     "'a" ++ String backslash (String backslash "b'");
     "'" ++ String dquote "q'"; "'" ++ String backslash "x00'"].
Proof. vm_compute. reflexivity. Qed.

Example power_of_ten_samples :
  map power_of_ten [0; 2; 8; 9; 22; 25]
  = [1; 100; 1e8; 1e9; 1e22; 9.999999999999999e24]%float.
Proof. vm_compute. reflexivity. Qed.

Example str_split_samples :
  map (fun p => str_split (fst p) (snd p))
    [("1.5 mins", " "); ("4.32MHz", " "); ("a  b", " "); (" a b ", " ");
     ("a--b-c--", "--"); ("aaa", "aa"); ("", " ")]
  = map Ok [["1.5"; "mins"]; ["4.32MHz"]; ["a"; ""; "b"]; [""; "a"; "b"; ""];
            ["a"; "b-c"; ""]; [""; "a"]; [""]].
Proof. vm_compute. reflexivity. Qed.

Example py_truediv_samples :
  map (fun p => py_truediv (fst p) (snd p))
    [(Int 90, Int 60); (Int 65, Int 60); (Float 0.0005, Float 0.001);
     (Int 1, Int 3); (Int 110000000000000, Int 100000000000000)]
  = map Ok [1.5; 1.0833333333333333; 0.5; 0.3333333333333333; 1.1]%float.
Proof. vm_compute. reflexivity. Qed.

Example np_round_samples :
  map (fun x => np_round x 2) [1.0833333333333333; 0.125; 2.675; 1234.5678]%float
  = [1.08; 0.12; 2.68; 1234.57]%float.
Proof. vm_compute. reflexivity. Qed.

(** The docstring of [formatted_str_to_number]: '4.32 MHz' to 4.32 E+6. *)
Example docstring_example :
  @formatted_str_to_number spec_dtype_utils (Atom (AStr "4.32 MHz")) hertz
    hertz_values space = Ok (ANum (Float 4320000)).
Proof. vm_compute. reflexivity. Qed.

(** ** The order on exact values *)

Ltac xorder :=
  repeat match goal with x : xreal |- _ => destruct x end;
  simpl in *; try congruence;
  repeat match goal with
    | H : context [Qcompare ?a ?b] |- _ => destruct (Qcompare_spec a b)
    | |- context [Qcompare ?a ?b] => destruct (Qcompare_spec a b)
    end;
  try congruence; try lra.

Lemma xlt_trans (x y z : xreal) :
  xlt x y = true -> xlt y z = true -> xlt x z = true.
Proof. xorder. Qed.

Lemma xle_lt_trans (x y z : xreal) :
  xle x y = true -> xlt y z = true -> xlt x z = true.
Proof. xorder. Qed.





Lemma xlt_real (x y : xreal) : xlt x y = true -> x <> XNaN /\ y <> XNaN.
Proof. xorder; split; congruence. Qed.



(** ** The exact order and the IEEE order *)

Lemma digits2_pos_bounds (m : positive) :
  2 ^ (Z.pos (digits2_pos m) - 1) <= Z.pos m < 2 ^ Z.pos (digits2_pos m).
Proof.
  induction m as [m IH|m IH|]; cbn [digits2_pos].
  - rewrite Pos2Z.inj_succ.
    replace (Z.succ (Z.pos (digits2_pos m)) - 1)
      with (Z.succ (Z.pos (digits2_pos m) - 1)) by lia.
    rewrite !Z.pow_succ_r by lia. lia.
  - rewrite Pos2Z.inj_succ.
    replace (Z.succ (Z.pos (digits2_pos m)) - 1)
      with (Z.succ (Z.pos (digits2_pos m) - 1)) by lia.
    rewrite !Z.pow_succ_r by lia. lia.
  - simpl. lia.
Qed.

Lemma bounded_facts (m : positive) (e : Z) :
  bounded prec emax m e = true ->
  -1074 <= e /\ Z.pos m < 2 ^ 53 /\ (e = -1074 \/ 2 ^ 52 <= Z.pos m).
Proof.
  unfold bounded, canonical_mantissa, fexp, emin, prec, emax.
  intros H. apply andb_true_iff in H. destruct H as [H _].
  apply Z.eqb_eq in H.
  pose proof (digits2_pos_bounds m) as [Hlo Hhi].
  set (d := Z.pos (digits2_pos m)) in *.
  assert (Hd : 0 < d) by (unfold d; lia).
  split; [lia|]. split.
  - assert (d <= 53) by lia.
    eapply Z.lt_le_trans; [exact Hhi|]. apply Z.pow_le_mono_r; lia.
  - destruct (Z.eq_dec e (-1074)) as [|Hne]; [left; assumption|right].
    assert (d = 53) by lia.
    replace 52 with (d - 1) by lia. exact Hlo.
Qed.

Lemma key_lt (m1 m2 : positive) (e1 e2 : Z) :
  bounded prec emax m1 e1 = true -> bounded prec emax m2 e2 = true ->
  e1 < e2 ->
  Z.pos m1 * 2 ^ (e1 + 1074) < Z.pos m2 * 2 ^ (e2 + 1074).
Proof.
  intros H1 H2 Hlt.
  destruct (bounded_facts _ _ H1) as (He1 & Hm1 & _).
  destruct (bounded_facts _ _ H2) as (He2 & _ & [He|Hm2]); [lia|].
  assert (P1 : 0 < 2 ^ (e1 + 1074)) by (apply Z.pow_pos_nonneg; lia).
  assert (P2 : 2 * 2 ^ (e1 + 1074) <= 2 ^ (e2 + 1074)).
  { rewrite <- Z.pow_succ_r by lia. apply Z.pow_le_mono_r; lia. }
  nia.
Qed.

Lemma Zmul_compare_r (a b p : Z) : 0 < p -> (a * p ?= b * p) = (a ?= b).
Proof.
  intros Hp. destruct (Z.compare_spec a b) as [->|H|H].
  - apply Z.compare_refl.
  - apply Z.compare_lt_iff. nia.
  - apply Z.compare_gt_iff. nia.
Qed.

Lemma key_compare_pos (m1 m2 : positive) (e1 e2 : Z) :
  bounded prec emax m1 e1 = true -> bounded prec emax m2 e2 = true ->
  (Z.pos m1 * 2 ^ (e1 + 1074) ?= Z.pos m2 * 2 ^ (e2 + 1074))
  = match e1 ?= e2 with
    | Lt => Lt
    | Gt => Gt
    | Eq => Pos.compare_cont Eq m1 m2
    end.
Proof.
  intros H1 H2. destruct (Z.compare_spec e1 e2) as [->|Hlt|Hgt].
  - destruct (bounded_facts _ _ H2) as (He & _).
    assert (P : 0 < 2 ^ (e2 + 1074)) by (apply Z.pow_pos_nonneg; lia).
    rewrite Zmul_compare_r by exact P. reflexivity.
  - apply Z.compare_lt_iff. now apply key_lt.
  - apply Z.compare_gt_iff. now apply key_lt.
Qed.

Lemma SFcompare_key (x y : spec_float) :
  SpecFloat.valid_binary prec emax x = true ->
  SpecFloat.valid_binary prec emax y = true ->
  finite_or_zero x = true -> finite_or_zero y = true ->
  SFcompare x y = Some (SF_key x ?= SF_key y).
Proof.
  intros Vx Vy Fx Fy.
  destruct x as [sx|sx| |sx mx ex]; try discriminate;
    destruct y as [sy|sy| |sy my ey]; try discriminate; simpl in Vx, Vy.
  - reflexivity.
  - destruct (bounded_facts _ _ Vy) as (He & _).
    assert (P : 0 < 2 ^ (ey + 1074)) by (apply Z.pow_pos_nonneg; lia).
    unfold SFcompare, SF_key. f_equal. destruct sy; symmetry.
    + apply Z.compare_gt_iff. nia.
    + apply Z.compare_lt_iff. nia.
  - destruct (bounded_facts _ _ Vx) as (He & _).
    assert (P : 0 < 2 ^ (ex + 1074)) by (apply Z.pow_pos_nonneg; lia).
    unfold SFcompare, SF_key. f_equal. destruct sx; symmetry.
    + apply Z.compare_lt_iff. nia.
    + apply Z.compare_gt_iff. nia.
  - destruct (bounded_facts _ _ Vx) as (Hex & _).
    destruct (bounded_facts _ _ Vy) as (Hey & _).
    assert (Px : 0 < 2 ^ (ex + 1074)) by (apply Z.pow_pos_nonneg; lia).
    assert (Py : 0 < 2 ^ (ey + 1074)) by (apply Z.pow_pos_nonneg; lia).
    unfold SFcompare, SF_key. f_equal. destruct sx, sy.
    + change (Z.neg mx) with (- Z.pos mx). change (Z.neg my) with (- Z.pos my).
      rewrite !Z.mul_opp_l, Z.compare_opp.
      rewrite (Z.compare_antisym (Z.pos mx * 2 ^ (ex + 1074))
                 (Z.pos my * 2 ^ (ey + 1074))).
      rewrite (key_compare_pos mx my ex ey Vx Vy).
      destruct (ex ?= ey); reflexivity.
    + symmetry. apply Z.compare_lt_iff. nia.
    + symmetry. apply Z.compare_gt_iff. nia.
    + symmetry. exact (key_compare_pos mx my ex ey Vx Vy).
Qed.

Lemma SF2X_key (x : spec_float) :
  SpecFloat.valid_binary prec emax x = true -> finite_or_zero x = true ->
  exists q : Q,
    SF2X x = XFin q /\ Qeq q (Qmake (SF_key x) (Z.to_pos (2 ^ 1074))).
Proof.
  intros V F. destruct x as [s|s| |s m e]; try discriminate; simpl in V.
  - exists 0%Q. split; reflexivity.
  - destruct (bounded_facts _ _ V) as (He & _).
    assert (P : 0 < 2 ^ 1074) by (apply Z.pow_pos_nonneg; lia).
    unfold SF2X, SF_key. set (mz := if s then Z.neg m else Z.pos m).
    eexists. split; [reflexivity|].
    unfold Qeq. cbn [Qnum Qden]. rewrite Z2Pos.id by exact P.
    destruct (Z.leb_spec 0 e) as [H|H]; cbn [Qnum Qden inject_Z].
    + rewrite Z.pow_add_r by lia. ring.
    + assert (P' : 0 < 2 ^ (- e)) by (apply Z.pow_pos_nonneg; lia).
      rewrite Z2Pos.id by exact P'.
      rewrite <- Z.mul_assoc, <- Z.pow_add_r by lia.
      replace (e + 1074 + - e) with 1074 by lia. reflexivity.
Qed.

Lemma Qcompare_same_den (a b : Z) (d : positive) :
  Qcompare (Qmake a d) (Qmake b d) = (a ?= b).
Proof. unfold Qcompare. cbn [Qnum Qden]. apply Zmul_compare_r. lia. Qed.

Lemma xlt_SF (x y : spec_float) :
  SpecFloat.valid_binary prec emax x = true ->
  SpecFloat.valid_binary prec emax y = true ->
  xlt (SF2X x) (SF2X y) = SFltb x y.
Proof.
  intros Vx Vy.
  destruct (finite_or_zero x) eqn:Fx, (finite_or_zero y) eqn:Fy.
  - destruct (SF2X_key x Vx Fx) as (p & -> & Hp).
    destruct (SF2X_key y Vy Fy) as (q & -> & Hq).
    unfold SFltb. rewrite (SFcompare_key x y Vx Vy Fx Fy).
    cbn [xlt]. rewrite Hp, Hq, Qcompare_same_den. reflexivity.
  - destruct x as [sx|sx| |sx mx ex], y as [sy|[|]| |sy my ey];
      try discriminate; reflexivity.
  - destruct x as [sx|[|]| |sx mx ex], y as [sy|sy| |sy my ey];
      try discriminate; try reflexivity; destruct sy; reflexivity.
  - destruct x as [sx|[|]| |sx mx ex], y as [sy|[|]| |sy my ey];
      try discriminate; reflexivity.
Qed.

Lemma xle_SF (x y : spec_float) :
  SpecFloat.valid_binary prec emax x = true ->
  SpecFloat.valid_binary prec emax y = true ->
  xle (SF2X x) (SF2X y) = SFleb x y.
Proof.
  intros Vx Vy.
  destruct (finite_or_zero x) eqn:Fx, (finite_or_zero y) eqn:Fy.
  - destruct (SF2X_key x Vx Fx) as (p & -> & Hp).
    destruct (SF2X_key y Vy Fy) as (q & -> & Hq).
    unfold SFleb. rewrite (SFcompare_key x y Vx Vy Fx Fy).
    cbn [xle]. rewrite Hp, Hq, Qcompare_same_den.
    destruct (SF_key x ?= SF_key y); reflexivity.
  - destruct x as [sx|sx| |sx mx ex], y as [sy|[|]| |sy my ey];
      try discriminate; reflexivity.
  - destruct x as [sx|[|]| |sx mx ex], y as [sy|sy| |sy my ey];
      try discriminate; try reflexivity; destruct sy; reflexivity.
  - destruct x as [sx|[|]| |sx mx ex], y as [sy|[|]| |sy my ey];
      try discriminate; reflexivity.
Qed.

Lemma xeq_SF (x y : spec_float) :
  SpecFloat.valid_binary prec emax x = true ->
  SpecFloat.valid_binary prec emax y = true ->
  xeq (SF2X x) (SF2X y) = SFeqb x y.
Proof.
  intros Vx Vy.
  destruct (finite_or_zero x) eqn:Fx, (finite_or_zero y) eqn:Fy.
  - destruct (SF2X_key x Vx Fx) as (p & -> & Hp).
    destruct (SF2X_key y Vy Fy) as (q & -> & Hq).
    unfold SFeqb. rewrite (SFcompare_key x y Vx Vy Fx Fy).
    cbn [xeq]. rewrite Hp, Hq, Qcompare_same_den. reflexivity.
  - destruct x as [sx|sx| |sx mx ex], y as [sy|[|]| |sy my ey];
      try discriminate; reflexivity.
  - destruct x as [sx|[|]| |sx mx ex], y as [sy|sy| |sy my ey];
      try discriminate; try reflexivity; destruct sy; reflexivity.
  - destruct x as [sx|[|]| |sx mx ex], y as [sy|[|]| |sy my ey];
      try discriminate; reflexivity.
Qed.

(** On floats, [<], [<=] and [==] of the exact values are the comparisons
    of the hardware. *)
Theorem num_ltb_float (a b : float) :
  num_ltb (Float a) (Float b) = PrimFloat.ltb a b.
Proof.
  rewrite ltb_spec. unfold num_ltb, num_val.
  apply xlt_SF; apply Prim2SF_valid.
Qed.

Theorem num_leb_float (a b : float) :
  num_leb (Float a) (Float b) = PrimFloat.leb a b.
Proof.
  rewrite leb_spec. unfold num_leb, num_val.
  apply xle_SF; apply Prim2SF_valid.
Qed.

Theorem num_eqb_float (a b : float) :
  num_eqb (Float a) (Float b) = PrimFloat.eqb a b.
Proof.
  rewrite eqb_spec. unfold num_eqb, num_val.
  apply xeq_SF; apply Prim2SF_valid.
Qed.

(** ** The scan of [format_quantity] *)

Lemma scan_found (value : num) (pre : list num) (g : num) (post : list num) :
  forall (i : Z) (index : option Z),
    Forall (fun f => num_ltb value f = false) pre ->
    num_ltb value g = true ->
    scan value (map ANum (pre ++ g :: post)%list) i index
    = Ok (Some (i + list_len pre - 1)).
Proof.
  unfold list_len.
  induction pre as [|f pre IH]; intros i index Hpre Hg; simpl.
  - rewrite Hg. simpl. f_equal. f_equal. lia.
  - inversion Hpre as [|? ? Hf Hrest]; subst.
    rewrite Hf. simpl. rewrite (IH (i + 1) (Some i) Hrest Hg).
    f_equal. f_equal. lia.
Qed.

Lemma scan_exhausted (value : num) (fs : list num) :
  forall (i : Z) (index : option Z),
    Forall (fun f => num_ltb value f = false) fs ->
    scan value (map ANum fs) i index
    = Ok (match fs with
          | [] => index
          | _ :: _ => Some (i + list_len fs - 1)
          end).
Proof.
  unfold list_len.
  induction fs as [|f fs IH]; intros i index Hfs; simpl; [reflexivity|].
  inversion Hfs as [|? ? Hf Hrest]; subst.
  rewrite Hf. simpl. rewrite (IH (i + 1) (Some i) Hrest).
  destruct fs; simpl; f_equal; f_equal; lia.
Qed.

(** Either some factor is above [value], and there is a first one, or
    none is. *)
Lemma first_above (value : num) (fs : list num) :
  (exists pre g post, fs = (pre ++ g :: post)%list /\
      Forall (fun f => num_ltb value f = false) pre /\
      num_ltb value g = true)
  \/ Forall (fun f => num_ltb value f = false) fs.
Proof.
  induction fs as [|f fs IH]; [right; constructor|].
  destruct (num_ltb value f) eqn:Hf.
  - left. exists [], f, fs. repeat split; [constructor | exact Hf].
  - destruct IH as [(pre & g & post & -> & Hpre & Hg) | Hall].
    + left. exists (f :: pre), g, post. repeat split; [constructor|]; assumption.
    + right. constructor; assumption.
Qed.








(** ** Containers of numbers *)

Lemma holds_numbers_iter (factors : pyobj) (fs : list num) :
  holds_numbers factors fs -> py_iter factors = Ok (map ANum fs).
Proof. intros [-> | [-> | ->]]; reflexivity. Qed.

Lemma holds_numbers_len (factors : pyobj) (fs : list num) :
  holds_numbers factors fs -> py_len factors = Ok (list_len fs).
Proof.
  intros [-> | [-> | ->]]; simpl; unfold list_len;
    rewrite ?length_map; reflexivity.
Qed.


Lemma py_len_iterable (o : pyobj) (n : Z) :
  py_len o = Ok n -> is_iterable o = true.
Proof. destruct o as [[| |]| | | | |]; simpl; congruence. Qed.

Lemma seq_getitem_nth {A : Type} (oob : string) (xs : list A) (i : nat) (x : A) :
  nth_error xs i = Some x -> seq_getitem oob xs (Z.of_nat i) = Ok x.
Proof.
  intros H. unfold seq_getitem.
  assert (E : (Z.of_nat i <? 0) = false) by (apply Z.ltb_ge; lia).
  rewrite E. cbv beta iota zeta. rewrite E, Nat2Z.id, H. reflexivity.
Qed.

Lemma holds_numbers_getitem (factors : pyobj) (fs : list num) (i : nat) (f : num) :
  holds_numbers factors fs -> nth_error fs i = Some f ->
  py_getitem factors (Z.of_nat i) = Ok (ANum f).
Proof.
  intros [-> | [-> | ->]] H; simpl; apply seq_getitem_nth;
    rewrite nth_error_map, H; reflexivity.
Qed.

(** ** The selected index *)




(** ** The argument checks, passed *)

Lemma format_quantity_checked (DU : dtype_utils) (value : num)
    (unit_names factors : pyobj) (decimals n : Z) (names : list string) :
  py_len unit_names = Ok n -> py_len factors = Ok n ->
  validate_list_of_strings unit_names "unit_names" = Ok names ->
  format_quantity value unit_names factors decimals
  = (index <- select_index value factors ;;
     render value names factors decimals index).
Proof.
  intros H1 H2 Hn. unfold format_quantity.
  rewrite (py_len_iterable _ _ H1), (py_len_iterable _ _ H2). simpl.
  rewrite H1, H2. simpl. rewrite Z.eqb_refl. simpl. rewrite Hn. reflexivity.
Qed.

Lemma formatted_str_to_number_checked (DU : dtype_utils)
    (str_val magnitude_names magnitude_values : pyobj) (sep s : string)
    (names : list string) (values : list atom) (scalings : list num) :
  validate_string_args str_val "str_val" = Ok [s] ->
  validate_list_of_strings magnitude_names "magnitude_names" = Ok names ->
  list_or_tuple magnitude_values = Some values ->
  all_numbers values = Some scalings ->
  list_len names = list_len values ->
  formatted_str_to_number str_val magnitude_names magnitude_values
    (Atom (AStr sep))
  = (components <- str_split s sep ;;
     if negb (list_len components =? 2) then Raise format_error
     else lookup (combine names scalings) components).
Proof.
  intros Hs Hn Hv Ha Hl. unfold formatted_str_to_number.
  rewrite Hs. simpl. rewrite Hn. simpl. rewrite Hv, Ha, Hl, Z.eqb_refl.
  reflexivity.
Qed.

(** ** The documented examples *)

(** C7.  With the table msec 0.001, sec 1, mins 60, hours 3600 and two
    decimals, [format_time] gives "0.5 msec" for 0.0005, "1.08 mins" for 65
    and "1.0 hours" for 3600. *)
Theorem format_time_examples :
  forall DU : dtype_utils,
    validate_list_of_strings (PyList time_units) "unit_names"
    = Ok ["msec"; "sec"; "mins"; "hours"] ->
    format_time (Float 0.0005) 2 = Ok "0.5 msec" /\
    format_time (Int 65) 2 = Ok "1.08 mins" /\
    format_time (Int 3600) 2 = Ok "1.0 hours".
Proof.
  intros DU H. unfold format_time.
  rewrite !(format_quantity_checked DU _ (PyList time_units)
             (PyList time_factors) _ 4 _ eq_refl eq_refl H).
  repeat split; vm_compute; reflexivity.
Qed.

Lemma format_time_examples_witness :
  @format_time spec_dtype_utils (Float 0.0005) 2 = Ok "0.5 msec" /\
  @format_time spec_dtype_utils (Int 65) 2 = Ok "1.08 mins" /\
  @format_time spec_dtype_utils (Int 3600) 2 = Ok "1.0 hours".
Proof. apply (format_time_examples spec_dtype_utils). reflexivity. Defined.

(** C8.  With the table bytes 1, kB 1024, MB 1024^2, GB 1024^3, TB 1024^4
    and two decimals, [format_size] gives "1.0 kB" for 1024, "1.5 kB" for
    1536 and "0.0 bytes" for 0. *)
Theorem format_size_examples :
  forall DU : dtype_utils,
    validate_list_of_strings (PyList size_units) "unit_names"
    = Ok ["bytes"; "kB"; "MB"; "GB"; "TB"] ->
    size_factors
    = [Int 1; Int 1024; Int (1024 ^ 2); Int (1024 ^ 3); Int (1024 ^ 4)] /\
    format_size (Int 1024) 2 = Ok "1.0 kB" /\
    format_size (Int 1536) 2 = Ok "1.5 kB" /\
    format_size (Int 0) 2 = Ok "0.0 bytes".
Proof.
  intros DU H. unfold format_size.
  rewrite !(format_quantity_checked DU _ (PyList size_units)
             (PyArray size_factors) _ 5 _ eq_refl eq_refl H).
  repeat split; vm_compute; reflexivity.
Qed.

Lemma format_size_examples_witness :
  size_factors
  = [Int 1; Int 1024; Int (1024 ^ 2); Int (1024 ^ 3); Int (1024 ^ 4)] /\
  @format_size spec_dtype_utils (Int 1024) 2 = Ok "1.0 kB" /\
  @format_size spec_dtype_utils (Int 1536) 2 = Ok "1.5 kB" /\
  @format_size spec_dtype_utils (Int 0) 2 = Ok "0.0 bytes".
Proof. apply (format_size_examples spec_dtype_utils). reflexivity. Defined.

(** C2, as the code has it.  90 with the table sec 1, mins 60 is formatted
    as "1.5 mins", and parsing that text with the same table gives
    60 * 1.5 = 90.0, the value that was formatted. *)
Theorem round_trip_ninety :
  forall DU : dtype_utils,
    validate_list_of_strings sec_mins "unit_names" = Ok ["sec"; "mins"] ->
    validate_list_of_strings sec_mins "magnitude_names" = Ok ["sec"; "mins"] ->
    validate_string_args (Atom (AStr "1.5 mins")) "str_val" = Ok ["1.5 mins"] ->
    format_quantity (Int 90) sec_mins one_sixty 2 = Ok "1.5 mins" /\
    formatted_str_to_number (Atom (AStr "1.5 mins")) sec_mins one_sixty space
    = Ok (ANum (Float 90)) /\
    round_trip (Int 90) sec_mins one_sixty 2 = Ok (ANum (Float 90)) /\
    num_eqb (Float 90) (Int 90) = true.
Proof.
  intros DU Hu Hm Hs.
  assert (Hf : format_quantity (Int 90) sec_mins one_sixty 2 = Ok "1.5 mins").
  { rewrite (format_quantity_checked DU _ sec_mins one_sixty _ 2 _
               eq_refl eq_refl Hu).
    vm_compute. reflexivity. }
  assert (Hp : formatted_str_to_number (Atom (AStr "1.5 mins")) sec_mins
                 one_sixty space = Ok (ANum (Float 90))).
  { unfold space.
    rewrite (formatted_str_to_number_checked DU _ sec_mins one_sixty " " _ _
               [ANum (Int 1); ANum (Int 60)] [Int 1; Int 60]
               Hs Hm eq_refl eq_refl eq_refl).
    vm_compute. reflexivity. }
  split; [exact Hf|]. split; [exact Hp|]. split.
  - unfold round_trip. rewrite Hf. exact Hp.
  - vm_compute. reflexivity.
Qed.

Lemma round_trip_ninety_witness :
  @format_quantity spec_dtype_utils (Int 90) sec_mins one_sixty 2
  = Ok "1.5 mins" /\
  @formatted_str_to_number spec_dtype_utils (Atom (AStr "1.5 mins")) sec_mins
    one_sixty space = Ok (ANum (Float 90)) /\
  @round_trip spec_dtype_utils (Int 90) sec_mins one_sixty 2
  = Ok (ANum (Float 90)) /\
  num_eqb (Float 90) (Int 90) = true.
Proof.
  apply (round_trip_ninety spec_dtype_utils); reflexivity.
Defined.

(** C2, as stated, fails: the parsed value is 90.0, and 90.0 == 1.5 is
    false. *)
Lemma round_trip_ninety_is_not_one_and_a_half :
  @round_trip spec_dtype_utils (Int 90) sec_mins one_sixty 2
  = Ok (ANum (Float 90)) /\
  num_eqb (Float 90) (Float 1.5) = false.
Proof. split; vm_compute; reflexivity. Qed.

(** ** The empty table *)

Lemma py_len_zero_iter (o : pyobj) : py_len o = Ok 0 -> py_iter o = Ok [].
Proof.
  destruct o as [[| |s]|xs|xs|xs|xs|xs]; simpl; try discriminate;
    unfold str_len, list_len; intros H; injection H as H;
    try (destruct s; [reflexivity | simpl in H; lia]);
    (destruct xs; [reflexivity | simpl in H; lia]).
Qed.

(** C10.  With empty [unit_names] and empty [factors] the length check
    passes, the loop does not run, [index] is still [None] and the call
    ends in the TypeError of [max(0, None)], not in an error of the
    argument checks. *)
Theorem format_quantity_empty_table :
  forall (DU : dtype_utils) (value : num) (unit_names factors : pyobj)
         (decimals : Z) (names : list string),
    py_len unit_names = Ok 0 -> py_len factors = Ok 0 ->
    validate_list_of_strings unit_names "unit_names" = Ok names ->
    py_iter factors = Ok [] /\
    scan value [] 0 None = Ok None /\
    format_quantity value unit_names factors decimals
    = Raise (TypeError
               "'>' not supported between instances of 'NoneType' and 'int'").
Proof.
  intros DU value unit_names factors decimals names Hu Hf Hn.
  split; [exact (py_len_zero_iter _ Hf)|]. split; [reflexivity|].
  rewrite (format_quantity_checked DU _ _ _ _ 0 _ Hu Hf Hn).
  unfold select_index. rewrite (py_len_zero_iter _ Hf). reflexivity.
Qed.

Lemma format_quantity_empty_table_witness :
  py_iter (PyList []) = Ok [] /\
  scan (Int 90) [] 0 None = Ok None /\
  @format_quantity spec_dtype_utils (Int 90) (PyList []) (PyList []) 2
  = Raise (TypeError
             "'>' not supported between instances of 'NoneType' and 'int'").
Proof.
  apply (format_quantity_empty_table spec_dtype_utils (Int 90) (PyList [])
           (PyList []) 2 []); reflexivity.
Defined.

(** ** The parser *)

Lemma lookup_miss (pairs : list (string * num)) (c0 c1 : string) :
  ~ In c1 (map fst pairs) -> lookup pairs [c0; c1] = Ok ANone.
Proof.
  induction pairs as [|[unit_name scaling] rest IH]; intros Hnot; simpl.
  - reflexivity.
  - change (seq_getitem "list index out of range" [c0; c1] 1) with (Ok c1). simpl.
    destruct (String.eqb_spec unit_name c1) as [->|Hne].
    + exfalso. apply Hnot. left. reflexivity.
    + apply IH. intros Hin. apply Hnot. right. exact Hin.
Qed.

Lemma combine_names (names : list string) (scalings : list num) (c : string) :
  In c (map fst (combine names scalings)) -> In c names.
Proof.
  intros H. apply in_map_iff in H. destruct H as ([n k] & <- & Hin).
  exact (in_combine_l _ _ _ _ Hin).
Qed.

(** C4.  When the arguments are well formed, the text splits into two
    components, the first is a valid number and the second is no name of
    the table, the parser raises nothing and returns [None]. *)
Theorem unmatched_unit_returns_None :
  forall (DU : dtype_utils) (str_val magnitude_names magnitude_values : pyobj)
         (sep s : string) (names : list string) (values : list atom)
         (scalings : list num) (c0 c1 : string) (x : float),
    validate_string_args str_val "str_val" = Ok [s] ->
    validate_list_of_strings magnitude_names "magnitude_names" = Ok names ->
    list_or_tuple magnitude_values = Some values ->
    all_numbers values = Some scalings ->
    list_len names = list_len values ->
    str_split s sep = Ok [c0; c1] ->
    py_float c0 = Ok x ->
    ~ In c1 names ->
    formatted_str_to_number str_val magnitude_names magnitude_values
      (Atom (AStr sep)) = Ok ANone.
Proof.
  intros DU str_val mn mv sep s names values scalings c0 c1 x
         Hs Hn Hv Ha Hl Hsplit _ Hnot.
  rewrite (formatted_str_to_number_checked DU _ _ _ _ _ _ _ _ Hs Hn Hv Ha Hl).
  rewrite Hsplit. simpl.
  apply lookup_miss. intros Hin. apply Hnot. exact (combine_names _ _ _ Hin).
Qed.

Lemma unmatched_unit_returns_None_witness :
  @formatted_str_to_number spec_dtype_utils (Atom (AStr "4.32 GHz")) hertz
    hertz_values space = Ok ANone.
Proof.
  apply (unmatched_unit_returns_None spec_dtype_utils (Atom (AStr "4.32 GHz"))
           hertz hertz_values " " "4.32 GHz" ["Hz"; "kHz"; "MHz"]
           [ANum (Int 1); ANum (Float 1e3); ANum (Float 1e6)]
           [Int 1; Float 1e3; Float 1e6] "4.32" "GHz" 4.32%float);
    try reflexivity.
  simpl. intros [H | [H | [H | []]]]; discriminate.
Defined.

Lemma two_components (components : list string) :
  (list_len components =? 2) = true ->
  exists c0 c1, components = [c0; c1].
Proof.
  unfold list_len. intros H. apply Z.eqb_eq in H.
  destruct components as [|c0 [|c1 [|c2 rest]]]; simpl in H; try lia.
  exists c0, c1. reflexivity.
Qed.

(** C6.  When the arguments are well formed and the text does not split
    into exactly two components on the separator, the parser raises a
    ValueError, whatever the names and the values are: the format error
    when the separator is not empty, the error of [split] itself when it
    is. *)
Theorem malformed_text_raises_ValueError :
  forall (DU : dtype_utils) (str_val magnitude_names magnitude_values : pyobj)
         (sep s : string) (names : list string) (values : list atom)
         (scalings : list num),
    validate_string_args str_val "str_val" = Ok [s] ->
    validate_list_of_strings magnitude_names "magnitude_names" = Ok names ->
    list_or_tuple magnitude_values = Some values ->
    all_numbers values = Some scalings ->
    list_len names = list_len values ->
    (forall c0 c1 : string, str_split s sep <> Ok [c0; c1]) ->
    (exists msg : string,
        formatted_str_to_number str_val magnitude_names magnitude_values
          (Atom (AStr sep)) = Raise (ValueError msg)) /\
    (sep <> "" ->
     formatted_str_to_number str_val magnitude_names magnitude_values
       (Atom (AStr sep)) = Raise format_error).
Proof.
  intros DU str_val mn mv sep s names values scalings Hs Hn Hv Ha Hl Hsplit.
  rewrite (formatted_str_to_number_checked DU _ _ _ _ _ _ _ _ Hs Hn Hv Ha Hl).
  destruct (str_split s sep) as [components|e] eqn:E.
  - simpl. destruct (list_len components =? 2) eqn:Hlen.
    + destruct (two_components _ Hlen) as (c0 & c1 & ->).
      exfalso. exact (Hsplit c0 c1 eq_refl).
    + simpl. split; [eexists|intros _]; reflexivity.
  - destruct sep; simpl in E; [|discriminate].
    injection E as <-. simpl. split; [eexists; reflexivity|congruence].
Qed.

Lemma malformed_text_raises_ValueError_witness :
  (exists msg : string,
      @formatted_str_to_number spec_dtype_utils (Atom (AStr "4.32MHz")) hertz
        hertz_values space = Raise (ValueError msg)) /\
  (" " <> "" ->
   @formatted_str_to_number spec_dtype_utils (Atom (AStr "4.32MHz")) hertz
     hertz_values space = Raise format_error).
Proof.
  apply (malformed_text_raises_ValueError spec_dtype_utils
           (Atom (AStr "4.32MHz")) hertz hertz_values " " "4.32MHz"
           ["Hz"; "kHz"; "MHz"]
           [ANum (Int 1); ANum (Float 1e3); ANum (Float 1e6)]
           [Int 1; Float 1e3; Float 1e6]); try reflexivity.
  intros c0 c1. vm_compute. discriminate.
Defined.

(** C9.  When the other arguments are well formed, an iterable given as
    [magnitude_values] that is neither a list nor a tuple (a numpy array, a
    generator) makes the parser raise its TypeError, whatever the text is;
    the same iterable given as [factors] passes the two [isinstance] checks
    of [format_quantity], which goes on to the length check and the rest. *)
Theorem magnitude_values_list_or_tuple_only :
  forall (DU : dtype_utils) (str_val magnitude_names magnitude_values : pyobj)
         (sep s : string) (names : list string),
    validate_string_args str_val "str_val" = Ok [s] ->
    validate_list_of_strings magnitude_names "magnitude_names" = Ok names ->
    is_iterable magnitude_values = true ->
    list_or_tuple magnitude_values = None ->
    formatted_str_to_number str_val magnitude_names magnitude_values
      (Atom (AStr sep))
    = Raise (TypeError "magnitude_values must be an Iterable") /\
    (forall (value : num) (unit_names : pyobj) (decimals : Z),
        is_iterable unit_names = true ->
        format_quantity value unit_names magnitude_values decimals
        = (n1 <- py_len unit_names ;;
           n2 <- py_len magnitude_values ;;
           if negb (n1 =? n2)
           then Raise (ValueError
                         "unit_names and factors must be of the same length")
           else
             unit_strings <- validate_list_of_strings unit_names "unit_names" ;;
             index <- select_index value magnitude_values ;;
             render value unit_strings magnitude_values decimals index)).
Proof.
  intros DU str_val mn mv sep s names Hs Hn Hit Hlt. split.
  - unfold formatted_str_to_number. rewrite Hs. simpl. rewrite Hn. simpl.
    rewrite Hlt. reflexivity.
  - intros value unit_names decimals Hu. unfold format_quantity.
    rewrite Hu, Hit. reflexivity.
Qed.

Lemma magnitude_values_list_or_tuple_only_witness :
  @formatted_str_to_number spec_dtype_utils (Atom (AStr "1.5 kB"))
    (PyList size_units) (PyArray size_factors) space
  = Raise (TypeError "magnitude_values must be an Iterable") /\
  @format_quantity spec_dtype_utils (Int 1536) (PyList size_units)
    (PyArray size_factors) 2 = Ok "1.5 kB".
Proof.
  destruct (magnitude_values_list_or_tuple_only spec_dtype_utils
              (Atom (AStr "1.5 kB")) (PyList size_units) (PyArray size_factors)
              " " "1.5 kB" ["bytes"; "kB"; "MB"; "GB"; "TB"]
              eq_refl eq_refl eq_refl eq_refl) as [Hparse Hformat].
  split; [exact Hparse|].
  rewrite (Hformat (Int 1536) (PyList size_units) 2 eq_refl).
  vm_compute. reflexivity.
Defined.

(** ** The argument checks of [format_quantity] *)

(** C5, as the code has it.  Whatever the value is, [format_quantity]
    raises its TypeError when [unit_names] or [factors] is not an
    Iterable, and its ValueError when both have a length and the lengths
    differ. *)
Theorem format_quantity_argument_errors :
  forall (DU : dtype_utils) (value : num) (unit_names factors : pyobj)
         (decimals : Z),
    (is_iterable unit_names = false ->
     format_quantity value unit_names factors decimals
     = Raise (TypeError "unit_names must an Iterable")) /\
    (is_iterable unit_names = true -> is_iterable factors = false ->
     format_quantity value unit_names factors decimals
     = Raise (TypeError "factors must be an Iterable")) /\
    (forall n1 n2 : Z,
        py_len unit_names = Ok n1 -> py_len factors = Ok n2 -> n1 <> n2 ->
        format_quantity value unit_names factors decimals
        = Raise (ValueError
                   "unit_names and factors must be of the same length")).
Proof.
  intros DU value unit_names factors decimals. unfold format_quantity.
  split; [|split].
  - intros ->. reflexivity.
  - intros -> ->. reflexivity.
  - intros n1 n2 H1 H2 Hne.
    rewrite (py_len_iterable _ _ H1), (py_len_iterable _ _ H2). simpl.
    rewrite H1, H2. simpl.
    destruct (Z.eqb_spec n1 n2); [contradiction | reflexivity].
Qed.

Lemma format_quantity_argument_errors_witness :
  @format_quantity spec_dtype_utils (Int 90) (Atom ANone) one_sixty 2
  = Raise (TypeError "unit_names must an Iterable") /\
  @format_quantity spec_dtype_utils (Int 90) sec_mins (Atom (ANum (Int 60))) 2
  = Raise (TypeError "factors must be an Iterable") /\
  @format_quantity spec_dtype_utils (Int 90) sec_mins
    (PyList [ANum (Int 1); ANum (Int 60); ANum (Int 3600)]) 2
  = Raise (ValueError "unit_names and factors must be of the same length").
Proof.
  split; [|split].
  - apply (format_quantity_argument_errors spec_dtype_utils (Int 90)
             (Atom ANone) one_sixty 2). reflexivity.
  - apply (format_quantity_argument_errors spec_dtype_utils (Int 90)
             sec_mins (Atom (ANum (Int 60))) 2); reflexivity.
  - apply (format_quantity_argument_errors spec_dtype_utils (Int 90) sec_mins
             (PyList [ANum (Int 1); ANum (Int 60); ANum (Int 3600)]) 2)
      with (n1 := 2) (n2 := 3); [reflexivity | reflexivity | discriminate].
Defined.

(** C5, as stated, fails: a dict with the keys 0 and 1 is not an ordered
    sequence, and [format_quantity] formats with it. *)
Lemma dict_factors_are_accepted :
  is_sequence (PyDict [(ANum (Int 0), ANum (Int 1));
                       (ANum (Int 1), ANum (Int 60))]) = false /\
  @format_quantity spec_dtype_utils (Int 90) sec_mins
    (PyDict [(ANum (Int 0), ANum (Int 1)); (ANum (Int 1), ANum (Int 60))]) 2
  = Ok "1.5 mins".
Proof. split; vm_compute; reflexivity. Qed.

(** ** Texts without a space *)

Lemma lacks_app (c : ascii) (a b : string) :
  lacks c (a ++ b) = (lacks c a && lacks c b)%bool.
Proof.
  induction a as [|x a IH]; simpl; [reflexivity|].
  rewrite IH. apply andb_assoc.
Qed.

Lemma lacks_rev (c : ascii) (s : string) : lacks c (string_rev s) = lacks c s.
Proof.
  induction s as [|x s IH]; simpl; [reflexivity|].
  rewrite lacks_app, IH. simpl. rewrite andb_true_r. apply andb_comm.
Qed.

Lemma lacks_drop_while (c : ascii) (p : ascii -> bool) (s : string) :
  lacks c s = true -> lacks c (drop_while p s) = true.
Proof.
  induction s as [|x s IH]; simpl; [reflexivity|].
  intros H. destruct (p x); [|exact H].
  apply andb_true_iff in H. apply IH, H.
Qed.

Lemma lacks_substring (c : ascii) (s : string) :
  forall n m : nat, lacks c s = true -> lacks c (substring n m s) = true.
Proof.
  induction s as [|x s IH]; intros n m H; simpl.
  - destruct n, m; reflexivity.
  - simpl in H. apply andb_true_iff in H. destruct H as [Hx Hs].
    destruct n as [|n]; [destruct m as [|m]|]; simpl; auto.
    rewrite Hx. simpl. auto.
Qed.

Lemma lacks_zeros (n : nat) : lacks " " (zeros n) = true.
Proof. induction n; simpl; auto. Qed.

Lemma digit_char_not_space (d : Z) :
  0 <= d < 10 -> Ascii.eqb " " (digit_char d) = false.
Proof.
  intros H.
  assert (E : d = 0 \/ d = 1 \/ d = 2 \/ d = 3 \/ d = 4 \/ d = 5 \/ d = 6
              \/ d = 7 \/ d = 8 \/ d = 9) by lia.
  repeat (destruct E as [-> | E]; [reflexivity|]). subst. reflexivity.
Qed.

Lemma lacks_Z_to_string_aux (fuel : nat) :
  forall (n : Z) (acc : string),
    lacks " " acc = true -> lacks " " (Z_to_string_aux fuel n acc) = true.
Proof.
  induction fuel as [|fuel IH]; intros n acc H; cbn [Z_to_string_aux];
    pose proof (digit_char_not_space (n mod 10)
                  (Z.mod_pos_bound n 10 eq_refl)) as Hd.
  - cbn [lacks]. rewrite Hd. exact H.
  - destruct (n <? 10); [cbn [lacks]; rewrite Hd; exact H|].
    apply IH. cbn [lacks]. rewrite Hd. exact H.
Qed.

Lemma lacks_Z_to_string (n : Z) : lacks " " (Z_to_string n) = true.
Proof. apply lacks_Z_to_string_aux. reflexivity. Qed.

Lemma lacks_rstrip_zeros (s : string) :
  lacks " " s = true -> lacks " " (rstrip_zeros s) = true.
Proof.
  intros H. unfold rstrip_zeros.
  assert (E : lacks " " (string_rev (drop_while (Ascii.eqb "0") (string_rev s)))
              = true).
  { rewrite lacks_rev. apply lacks_drop_while. rewrite lacks_rev. exact H. }
  destruct (string_rev (drop_while (Ascii.eqb "0") (string_rev s)));
    [reflexivity | exact E].
Qed.

Lemma lacks_pad2 (s : string) :
  lacks " " s = true -> lacks " " (pad2 s) = true.
Proof. intros H. unfold pad2. destruct (_ <? _)%nat; simpl; auto. Qed.

Lemma lacks_repr_layout (ds : string) (decpt : Z) :
  lacks " " ds = true -> lacks " " (repr_layout ds decpt) = true.
Proof.
  intros H. unfold repr_layout.
  repeat match goal with
         | |- context [if ?b then _ else _] => destruct b
         end;
    repeat (rewrite ?lacks_app, ?lacks_zeros, ?lacks_substring
             by assumption; simpl);
    rewrite ?H, ?lacks_pad2 by apply lacks_Z_to_string; reflexivity.
Qed.

Lemma lacks_float_str (x : float) : lacks " " (float_str x) = true.
Proof.
  unfold float_str. destruct (Prim2SF x) as [[|]|[|]| |s m e]; try reflexivity.
  destruct (shortest _ _ _ _ _) as [D decpt].
  rewrite lacks_app, lacks_repr_layout
    by (apply lacks_rstrip_zeros, lacks_Z_to_string).
  destruct s; reflexivity.
Qed.

(** ** Splitting a formatted text *)

Lemma string_app_assoc (a b c : string) : (a ++ b) ++ c = a ++ (b ++ c).
Proof. induction a as [|x a IH]; simpl; [reflexivity | now rewrite IH]. Qed.

Lemma string_app_empty (a : string) : a ++ "" = a.
Proof. induction a as [|x a IH]; simpl; [reflexivity | now rewrite IH]. Qed.


Lemma split_go_first (c : ascii) (a b : string) :
  forall cur : string,
    lacks c a = true ->
    split_go (String c "") (a ++ String c b) 0 cur
    = (string_rev cur ++ a) :: split_go (String c "") b 0 "".
Proof.
  induction a as [|x a IH]; intros cur H; simpl.
  - rewrite Ascii.eqb_refl. simpl. now rewrite string_app_empty.
  - simpl in H. apply andb_true_iff in H. destruct H as [Hx Ha].
    apply negb_true_iff in Hx. rewrite Hx. simpl.
    rewrite (IH (String x cur) Ha). simpl.
    now rewrite string_app_assoc.
Qed.


(** ** From the formatted text back to a number *)

Lemma all_numbers_map (fs : list num) : all_numbers (map ANum fs) = Some fs.
Proof. induction fs as [|f fs IH]; simpl; [reflexivity | now rewrite IH]. Qed.





(** * Further properties *)

(** ** The scan on any table of numbers *)

Lemma select_index_scan :
  forall (value : num) (factors : pyobj) (fs : list num),
    holds_numbers factors fs -> fs <> [] ->
    (forall (pre : list num) (g : num) (post : list num),
        fs = (pre ++ g :: post)%list ->
        Forall (fun f => num_ltb value f = false) pre ->
        num_ltb value g = true ->
        select_index value factors = Ok (Z.max 0 (list_len pre - 1))) /\
    (Forall (fun f => num_ltb value f = false) fs ->
     select_index value factors = Ok (list_len fs - 1)).
Proof.
  intros value factors fs Hfs Hne. unfold select_index.
  rewrite (holds_numbers_iter _ _ Hfs). cbn [bind]. split.
  - intros pre g post -> Hpre Hg.
    rewrite (scan_found value pre g post 0 None Hpre Hg). reflexivity.
  - intros Hall. rewrite (scan_exhausted value fs 0 None Hall).
    destruct fs as [|f fs']; [congruence|]. cbn [bind py_max0].
    f_equal. unfold list_len. simpl List.length. lia.
Qed.

(** X1.  For a non-empty list or tuple of numbers in any order, the
    selected index is the one before the first factor that is above the
    value, index 0 when that factor is the first one, and the last index
    when no factor is above the value. *)
Theorem select_index_first_above :
  forall (value : num) (factors : pyobj) (fs : list num),
    factors = PyList (map ANum fs) \/ factors = PyTuple (map ANum fs) ->
    fs <> [] ->
    (forall (pre : list num) (g : num) (post : list num),
        fs = (pre ++ g :: post)%list ->
        Forall (fun f => num_ltb value f = false) pre ->
        num_ltb value g = true ->
        select_index value factors = Ok (Z.max 0 (list_len pre - 1))) /\
    (Forall (fun f => num_ltb value f = false) fs ->
     select_index value factors = Ok (list_len fs - 1)).
Proof.
  intros value factors fs Hseq.
  apply select_index_scan. unfold holds_numbers. tauto.
Qed.

Lemma select_index_first_above_witness :
  select_index (Int 30) (PyList [ANum (Int 60); ANum (Int 1); ANum (Int 3600)])
  = Ok 0 /\
  select_index (Int 90) (PyList [ANum (Int 60); ANum (Int 1); ANum (Int 3600)])
  = Ok 1 /\
  select_index (Int 4000) (PyList [ANum (Int 60); ANum (Int 1); ANum (Int 3600)])
  = Ok 2.
Proof.
  destruct (select_index_first_above (Int 30)
              (PyList [ANum (Int 60); ANum (Int 1); ANum (Int 3600)])
              [Int 60; Int 1; Int 3600]) as [H30 _];
    [left; reflexivity | discriminate |].
  destruct (select_index_first_above (Int 90)
              (PyList [ANum (Int 60); ANum (Int 1); ANum (Int 3600)])
              [Int 60; Int 1; Int 3600]) as [H90 _];
    [left; reflexivity | discriminate |].
  destruct (select_index_first_above (Int 4000)
              (PyList [ANum (Int 60); ANum (Int 1); ANum (Int 3600)])
              [Int 60; Int 1; Int 3600]) as [_ H4000];
    [left; reflexivity | discriminate |].
  split; [|split].
  - exact (H30 [] (Int 60) [Int 1; Int 3600] eq_refl (Forall_nil _) eq_refl).
  - apply (H90 [Int 60; Int 1] (Int 3600) []);
      [reflexivity | repeat constructor | reflexivity].
  - apply H4000. repeat constructor.
Defined.

Lemma select_index_in_range (value : num) (factors : pyobj) (fs : list num) :
  holds_numbers factors fs -> fs <> [] ->
  exists i : nat,
    select_index value factors = Ok (Z.of_nat i) /\ (i < List.length fs)%nat.
Proof.
  intros Hfs Hne.
  destruct (select_index_scan value factors fs Hfs Hne) as [Hfound Hnone].
  destruct (first_above value fs) as [(pre & g & post & E & Hpre & Hg) | Hall].
  - exists (Nat.pred (List.length pre)). split.
    + rewrite (Hfound pre g post E Hpre Hg). f_equal. unfold list_len.
      destruct pre; simpl List.length; simpl Nat.pred; lia.
    + subst fs. rewrite length_app. destruct pre; simpl; lia.
  - exists (Nat.pred (List.length fs)). split.
    + rewrite (Hnone Hall). f_equal. unfold list_len.
      destruct fs; [congruence | simpl List.length; simpl Nat.pred; lia].
    + destruct fs; [congruence | simpl; lia].
Qed.

Lemma int_to_float_outcomes (z : Z) :
  (exists f, int_to_float z = Ok f)
  \/ (exists msg, int_to_float z = Raise (OverflowError msg)).
Proof. unfold int_to_float. destruct (is_infinity _); eauto. Qed.

Lemma py_truediv_outcomes (a b : num) :
  (exists q, py_truediv a b = Ok q)
  \/ (exists msg, py_truediv a b = Raise (ZeroDivisionError msg))
  \/ (exists msg, py_truediv a b = Raise (OverflowError msg)).
Proof.
  destruct a as [x|x], b as [y|y]; unfold py_truediv, to_float; cbn [bind].
  - destruct (y =? 0); [eauto|]. destruct (is_infinity _); eauto.
  - destruct (int_to_float_outcomes x) as [(f & ->) | (m & ->)]; cbn [bind];
      [|eauto]. destruct (PrimFloat.eqb _ _); eauto.
  - destruct (int_to_float_outcomes y) as [(f & ->) | (m & ->)]; cbn [bind];
      [|eauto]. destruct (PrimFloat.eqb _ _); eauto.
  - destruct (PrimFloat.eqb _ _); eauto.
Qed.

(** X2.  For a non-empty table of numbers and as many validated names,
    [format_quantity] returns a text or raises from the division: the
    index it selects is within the table, whatever the value and the order
    of the factors are. *)
Theorem format_quantity_index_in_range :
  forall (DU : dtype_utils) (value : num) (unit_names factors : pyobj)
         (fs : list num) (names : list string) (decimals : Z),
    holds_numbers factors fs -> fs <> [] ->
    py_len unit_names = Ok (list_len fs) ->
    validate_list_of_strings unit_names "unit_names" = Ok names ->
    list_len names = list_len fs ->
    (exists i : nat,
        select_index value factors = Ok (Z.of_nat i) /\
        (i < List.length fs)%nat) /\
    ((exists text, format_quantity value unit_names factors decimals = Ok text)
     \/ (exists msg, format_quantity value unit_names factors decimals
                     = Raise (ZeroDivisionError msg))
     \/ (exists msg, format_quantity value unit_names factors decimals
                     = Raise (OverflowError msg))).
Proof.
  intros DU value unit_names factors fs names decimals Hfs Hne Hlen Hn Hnl.
  destruct (select_index_in_range value factors fs Hfs Hne) as (i & Hsel & Hi).
  split; [exists i; split; assumption|].
  rewrite (format_quantity_checked DU _ _ _ _ _ _ Hlen
             (holds_numbers_len _ _ Hfs) Hn).
  rewrite Hsel. cbn [bind]. unfold render.
  destruct (nth_error fs i) as [f|] eqn:Hf;
    [|apply nth_error_None in Hf; lia].
  rewrite (holds_numbers_getitem _ _ _ _ Hfs Hf). cbn [bind py_div].
  destruct (nth_error names i) as [name|] eqn:Hname;
    [|apply nth_error_None in Hname; unfold list_len in Hnl; lia].
  destruct (py_truediv_outcomes value f) as [(q & ->) | [(m & ->) | (m & ->)]];
    cbn [bind]; [|eauto|eauto].
  rewrite (seq_getitem_nth _ _ _ _ Hname). cbn [bind]. eauto.
Qed.

Lemma format_quantity_index_in_range_witness :
  (exists i : nat,
      select_index (Float nan) one_sixty = Ok (Z.of_nat i) /\
      (i < List.length [Int 1; Int 60])%nat) /\
  ((exists text,
       @format_quantity spec_dtype_utils (Float nan) sec_mins one_sixty 2
       = Ok text)
   \/ (exists msg,
          @format_quantity spec_dtype_utils (Float nan) sec_mins one_sixty 2
          = Raise (ZeroDivisionError msg))
   \/ (exists msg,
          @format_quantity spec_dtype_utils (Float nan) sec_mins one_sixty 2
          = Raise (OverflowError msg))).
Proof.
  apply (format_quantity_index_in_range spec_dtype_utils (Float nan) sec_mins
           one_sixty [Int 1; Int 60] ["sec"; "mins"] 2);
    [left; reflexivity | discriminate | reflexivity | reflexivity | reflexivity].
Defined.

(** X3.  Whatever the arguments are, a text returned by [format_quantity] is
    the text of a float, one space and one of the validated names. *)
Theorem format_quantity_text_shape :
  forall (DU : dtype_utils) (value : num) (unit_names factors : pyobj)
         (decimals : Z) (text : string),
    format_quantity value unit_names factors decimals = Ok text ->
    exists (names : list string) (r : float) (name : string),
      validate_list_of_strings unit_names "unit_names" = Ok names /\
      In name names /\
      lacks " " (float_str r) = true /\
      text = float_str r ++ " " ++ name.
Proof.
  intros DU value unit_names factors decimals text. unfold format_quantity.
  destruct (is_iterable unit_names); [|discriminate].
  destruct (is_iterable factors); [|discriminate]. cbn [negb].
  destruct (py_len unit_names) as [n1|]; [|discriminate].
  destruct (py_len factors) as [n2|]; [|discriminate]. cbn [bind].
  destruct (negb (n1 =? n2)); [discriminate|].
  destruct (validate_list_of_strings unit_names "unit_names") as [names|];
    [|discriminate]. cbn [bind].
  destruct (select_index value factors) as [index|]; [|discriminate].
  cbn [bind]. unfold render.
  destruct (py_getitem factors index) as [val|]; [|discriminate]. cbn [bind].
  destruct (py_div value val) as [q|]; [|discriminate]. cbn [bind].
  destruct (seq_getitem "list index out of range" names index) as [name|] eqn:E;
    [|discriminate]. cbn [bind]. intros H. injection H as <-.
  exists names, (np_round q decimals), name.
  split; [reflexivity|]. split; [|split; [apply lacks_float_str | reflexivity]].
  unfold seq_getitem in E.
  destruct (_ <? 0); [discriminate|].
  destruct (nth_error names _) eqn:En; [|discriminate].
  injection E as <-. eapply nth_error_In; eauto.
Qed.

Lemma format_quantity_text_shape_witness :
  exists (names : list string) (r : float) (name : string),
    spec_validate_list_of_strings sec_mins "unit_names" = Ok names /\
    In name names /\
    lacks " " (float_str r) = true /\
    "1.5 mins" = float_str r ++ " " ++ name.
Proof.
  apply (format_quantity_text_shape spec_dtype_utils (Int 90) sec_mins
           one_sixty 2 "1.5 mins").
  vm_compute. reflexivity.
Defined.

(** X4.  A value that is not a number (NaN) is below no factor: the last unit
    is selected. *)
Theorem nan_selects_last_index :
  forall (value : num) (factors : pyobj) (fs : list num),
    holds_numbers factors fs -> fs <> [] ->
    num_val value = XNaN ->
    select_index value factors = Ok (list_len fs - 1).
Proof.
  intros value factors fs Hfs Hne Hnan.
  apply (select_index_scan value factors fs Hfs Hne).
  apply Forall_forall. intros f _. unfold num_ltb. rewrite Hnan. reflexivity.
Qed.

Lemma nan_selects_last_index_witness :
  select_index (Float nan) (PyList time_factors) = Ok 3 /\
  @format_time spec_dtype_utils (Float nan) 2 = Ok "nan hours".
Proof.
  split.
  - apply (nan_selects_last_index (Float nan) (PyList time_factors)
             [Float 0.001; Int 1; Int 60; Int 3600]);
      [left; reflexivity | discriminate | reflexivity].
  - vm_compute. reflexivity.
Defined.

(** ** [format_time] on floats *)





(** ** The units of [format_time] and [format_size] *)

Lemma num_ltb_trans (a b c : num) :
  num_ltb a b = true -> num_ltb b c = true -> num_ltb a c = true.
Proof. unfold num_ltb. apply xlt_trans. Qed.

(** X6.  The unit [format_time] selects, for every number, NaN and the
    infinities included: msec below one second (below a millisecond too,
    and for negative values), sec below 60, mins below 3600, hours
    otherwise. *)
Theorem format_time_unit :
  forall value : num,
    select_index value (PyList time_factors)
    = Ok (if num_ltb value (Int 1) then 0
          else if num_ltb value (Int 60) then 1
          else if num_ltb value (Int 3600) then 2
          else 3).
Proof.
  intros value. unfold select_index, time_factors.
  cbn [py_iter bind scan py_lt].
  destruct (num_ltb value (Float 0.001)) eqn:H0.
  - rewrite (num_ltb_trans value (Float 0.001) (Int 1) H0 eq_refl). reflexivity.
  - cbn [bind]. destruct (num_ltb value (Int 1)); [reflexivity|].
    cbn [bind]. destruct (num_ltb value (Int 60)); [reflexivity|].
    cbn [bind]. destruct (num_ltb value (Int 3600)); reflexivity.
Qed.

(** X7.  The unit [format_size] selects, for every number: bytes below 1024
    (for negative sizes too), then kB, MB and GB up to the next power of
    1024, and TB from 1024^4 on, however large the size is. *)
Theorem format_size_unit :
  forall value : num,
    select_index value (PyArray size_factors)
    = Ok (if num_ltb value (Int 1024) then 0
          else if num_ltb value (Int (1024 ^ 2)) then 1
          else if num_ltb value (Int (1024 ^ 3)) then 2
          else if num_ltb value (Int (1024 ^ 4)) then 3
          else 4).
Proof.
  intros value. unfold select_index.
  change (py_iter (PyArray size_factors))
    with (Ok [ANum (Int 1); ANum (Int 1024); ANum (Int (1024 ^ 2));
              ANum (Int (1024 ^ 3)); ANum (Int (1024 ^ 4))]).
  cbn [bind scan py_lt].
  destruct (num_ltb value (Int 1)) eqn:H0.
  - rewrite (num_ltb_trans value (Int 1) (Int 1024) H0 eq_refl). reflexivity.
  - cbn [bind]. destruct (num_ltb value (Int 1024)); [reflexivity|].
    cbn [bind]. destruct (num_ltb value (Int (1024 ^ 2))); [reflexivity|].
    cbn [bind]. destruct (num_ltb value (Int (1024 ^ 3))); [reflexivity|].
    cbn [bind]. destruct (num_ltb value (Int (1024 ^ 4))); reflexivity.
Qed.

(** ** A factor that is zero *)

Lemma num_eqb_zero (f : num) :
  num_eqb f (Int 0) = true ->
  f = Int 0 \/ exists g, f = Float g /\ PrimFloat.eqb g 0 = true.
Proof.
  destruct f as [z|g]; intros H.
  - left. unfold num_eqb in H. cbn in H.
    destruct (Qcompare_spec (inject_Z z) (inject_Z 0)) as [E| |]; try discriminate.
    unfold Qeq in E. cbn in E. f_equal. lia.
  - right. exists g. split; [reflexivity|].
    rewrite <- num_eqb_float. exact H.
Qed.

Lemma py_truediv_by_zero (value f : num) (x : float) :
  to_float value = Ok x -> num_eqb f (Int 0) = true ->
  exists msg, py_truediv value f = Raise (ZeroDivisionError msg).
Proof.
  intros Hx Hf.
  destruct (num_eqb_zero f Hf) as [-> | (g & -> & Hg)].
  - destruct value as [z|v].
    + eexists. reflexivity.
    + eexists. reflexivity.
  - unfold py_truediv. destruct value as [z|v]; rewrite Hx; cbn [to_float bind];
      rewrite Hg; eexists; reflexivity.
Qed.

(** X8.  When the factor at the selected index of a list or tuple is zero, the
    call raises ZeroDivisionError. *)
Theorem zero_factor_raises :
  forall (DU : dtype_utils) (value : num) (unit_names factors : pyobj)
         (fs : list num) (names : list string) (decimals : Z)
         (i : nat) (f : num) (x : float),
    factors = PyList (map ANum fs) \/ factors = PyTuple (map ANum fs) ->
    py_len unit_names = Ok (list_len fs) ->
    validate_list_of_strings unit_names "unit_names" = Ok names ->
    select_index value factors = Ok (Z.of_nat i) ->
    nth_error fs i = Some f ->
    num_eqb f (Int 0) = true ->
    to_float value = Ok x ->
    exists msg : string,
      format_quantity value unit_names factors decimals
      = Raise (ZeroDivisionError msg).
Proof.
  intros DU value unit_names factors fs names decimals i f x
         Hfs Hlen Hn Hsel Hf Hzero Hx.
  assert (Hh : holds_numbers factors fs) by (unfold holds_numbers; tauto).
  rewrite (format_quantity_checked DU _ _ _ _ _ _ Hlen
             (holds_numbers_len _ _ Hh) Hn).
  rewrite Hsel. cbn [bind]. unfold render.
  rewrite (holds_numbers_getitem _ _ _ _ Hh Hf). cbn [bind py_div].
  destruct (py_truediv_by_zero value f x Hx Hzero) as (msg & ->).
  exists msg. reflexivity.
Qed.

Lemma zero_factor_raises_witness :
  exists msg : string,
    @format_quantity spec_dtype_utils (Float 0.5) sec_mins
      (PyList [ANum (Int 0); ANum (Int 60)]) 2
    = Raise (ZeroDivisionError msg).
Proof.
  apply (zero_factor_raises spec_dtype_utils (Float 0.5) sec_mins
           (PyList [ANum (Int 0); ANum (Int 60)]) [Int 0; Int 60]
           ["sec"; "mins"] 2 0%nat (Int 0) 0.5%float);
    try reflexivity.
  left. reflexivity.
Defined.

(** ** The parser *)

Lemma lookup_first (pre : list (string * num)) (u : string) (k : num)
    (post : list (string * num)) (c0 : string) :
  ~ In u (map fst pre) ->
  lookup (pre ++ (u, k) :: post)%list [c0; u]
  = (x <- py_float c0 ;; r <- py_mul k (Float x) ;; Ok (ANum r)).
Proof.
  induction pre as [|[n s] pre IH]; intros Hnot; cbn [app lookup].
  - change (seq_getitem "list index out of range" [c0; u] 1) with (Ok u).
    change (seq_getitem "list index out of range" [c0; u] 0) with (Ok c0).
    cbn [bind]. rewrite String.eqb_refl. reflexivity.
  - change (seq_getitem "list index out of range" [c0; u] 1) with (Ok u).
    cbn [bind]. destruct (String.eqb_spec n u) as [->|Hne].
    + exfalso. apply Hnot. left. reflexivity.
    + apply IH. intros Hin. apply Hnot. right. exact Hin.
Qed.

Lemma combine_app {A B : Type} (xs1 : list A) (ys1 : list B) :
  forall (xs2 : list A) (ys2 : list B),
    List.length xs1 = List.length ys1 ->
    combine (xs1 ++ xs2) (ys1 ++ ys2) = (combine xs1 ys1 ++ combine xs2 ys2)%list.
Proof.
  revert ys1. induction xs1 as [|x xs1 IH]; intros [|y ys1] xs2 ys2 H;
    simpl in *; try discriminate; [reflexivity|].
  f_equal. apply IH. lia.
Qed.

(** X9.  When several names of the table equal the unit of the text, the
    scaling of the first one is used. *)
Theorem parser_uses_first_match :
  forall (DU : dtype_utils) (str_val magnitude_names magnitude_values : pyobj)
         (sep s : string) (names_before names_after : list string)
         (scalings_before scalings_after : list num) (values : list atom)
         (unit c0 : string) (scaling : num),
    validate_string_args str_val "str_val" = Ok [s] ->
    validate_list_of_strings magnitude_names "magnitude_names"
    = Ok (names_before ++ unit :: names_after)%list ->
    list_or_tuple magnitude_values = Some values ->
    all_numbers values
    = Some (scalings_before ++ scaling :: scalings_after)%list ->
    List.length names_before = List.length scalings_before ->
    List.length names_after = List.length scalings_after ->
    ~ In unit names_before ->
    str_split s sep = Ok [c0; unit] ->
    formatted_str_to_number str_val magnitude_names magnitude_values
      (Atom (AStr sep))
    = (x <- py_float c0 ;; r <- py_mul scaling (Float x) ;; Ok (ANum r)).
Proof.
  intros DU str_val mn mv sep s nb na sb sa values unit c0 scaling
         Hs Hn Hv Ha Hlb Hla Hnot Hsplit.
  assert (Hvals : List.length values
                  = List.length (sb ++ scaling :: sa)%list).
  { clear - Ha. revert Ha. generalize (sb ++ scaling :: sa)%list.
    induction values as [|a values IH]; intros l H; simpl in H.
    - injection H as <-. reflexivity.
    - destruct (as_number a); [|discriminate].
      destruct (all_numbers values) as [ns|]; [|discriminate].
      injection H as <-. simpl. f_equal. apply IH. reflexivity. }
  assert (Hl : list_len (nb ++ unit :: na)%list = list_len values).
  { unfold list_len. rewrite Hvals, !length_app. simpl. lia. }
  rewrite (formatted_str_to_number_checked DU _ _ _ _ _ _ _ _ Hs Hn Hv Ha Hl).
  rewrite Hsplit. cbn [bind].
  change (negb (list_len [c0; unit] =? 2)) with false. cbv iota.
  rewrite (combine_app nb sb _ _ Hlb). cbn [combine].
  apply lookup_first. intros Hin. apply Hnot.
  apply in_map_iff in Hin. destruct Hin as ([n k] & <- & Hin).
  exact (in_combine_l _ _ _ _ Hin).
Qed.

Lemma parser_uses_first_match_witness :
  @formatted_str_to_number spec_dtype_utils (Atom (AStr "2 m"))
    (PyList [AStr "s"; AStr "m"; AStr "m"])
    (PyList [ANum (Int 1); ANum (Int 60); ANum (Float 0.001)]) space
  = Ok (ANum (Float 120)).
Proof.
  unfold space.
  rewrite (parser_uses_first_match spec_dtype_utils (Atom (AStr "2 m"))
             (PyList [AStr "s"; AStr "m"; AStr "m"])
             (PyList [ANum (Int 1); ANum (Int 60); ANum (Float 0.001)])
             " " "2 m" ["s"] ["m"] [Int 1] [Float 0.001]
             [ANum (Int 1); ANum (Int 60); ANum (Float 0.001)]
             "m" "2" (Int 60));
    try reflexivity.
  simpl. intros [H | []]. discriminate.
Defined.

Lemma all_numbers_length (values : list atom) :
  forall scalings : list num,
    all_numbers values = Some scalings ->
    List.length scalings = List.length values.
Proof.
  induction values as [|a values IH]; intros l H; simpl in H.
  - injection H as <-. reflexivity.
  - destruct (as_number a); [|discriminate].
    destruct (all_numbers values) as [ns|]; [|discriminate].
    injection H as <-. simpl. f_equal. apply IH. reflexivity.
Qed.

Lemma map_fst_combine {A B : Type} (xs : list A) :
  forall ys : list B,
    List.length xs = List.length ys -> map fst (combine xs ys) = xs.
Proof.
  induction xs as [|x xs IH]; intros [|y ys] H; simpl in *;
    try discriminate; [reflexivity|].
  f_equal. apply IH. lia.
Qed.

Lemma lookup_bad_number (pairs : list (string * num)) (c0 c1 : string) (e : exn) :
  In c1 (map fst pairs) -> py_float c0 = Raise e ->
  lookup pairs [c0; c1] = Raise e.
Proof.
  intros Hin Hbad. induction pairs as [|[n k] pairs IH]; [contradiction|].
  cbn [lookup].
  change (seq_getitem "list index out of range" [c0; c1] 1) with (Ok c1).
  change (seq_getitem "list index out of range" [c0; c1] 0) with (Ok c0).
  cbn [bind]. destruct (String.eqb_spec n c1) as [->|Hne].
  - rewrite Hbad. reflexivity.
  - apply IH. destruct Hin as [H|H]; [contradiction | exact H].
Qed.

Lemma py_float_raises_ValueError (s : string) (e : exn) :
  py_float s = Raise e -> exists msg, e = ValueError msg.
Proof.
  unfold py_float.
  destruct (take_sign (remove_underscores (strip s))) as [neg body].
  destruct (negb (underscores_ok Ascii.zero (strip s)));
    [intros H; injection H as <-; eexists; reflexivity|].
  destruct (_ || _)%bool; [discriminate|].
  destruct (String.eqb (lower body) "nan"); [discriminate|].
  destruct (parse_decimal body) as [[D k]|]; [discriminate|].
  intros H. injection H as <-. eexists. reflexivity.
Qed.

(** X10.  When the unit of the text is a name of the table and the first
    component is not a number, the ValueError of [float] comes out of the
    parser as it is. *)
Theorem parser_number_error_propagates :
  forall (DU : dtype_utils) (str_val magnitude_names magnitude_values : pyobj)
         (sep s : string) (names : list string) (values : list atom)
         (scalings : list num) (c0 c1 : string) (e : exn),
    validate_string_args str_val "str_val" = Ok [s] ->
    validate_list_of_strings magnitude_names "magnitude_names" = Ok names ->
    list_or_tuple magnitude_values = Some values ->
    all_numbers values = Some scalings ->
    list_len names = list_len values ->
    str_split s sep = Ok [c0; c1] ->
    In c1 names ->
    py_float c0 = Raise e ->
    formatted_str_to_number str_val magnitude_names magnitude_values
      (Atom (AStr sep)) = Raise e /\
    exists msg : string, e = ValueError msg.
Proof.
  intros DU str_val mn mv sep s names values scalings c0 c1 e
         Hs Hn Hv Ha Hl Hsplit Hin Hbad.
  split; [|exact (py_float_raises_ValueError _ _ Hbad)].
  rewrite (formatted_str_to_number_checked DU _ _ _ _ _ _ _ _ Hs Hn Hv Ha Hl).
  rewrite Hsplit. cbn [bind].
  change (negb (list_len [c0; c1] =? 2)) with false. cbv iota.
  apply lookup_bad_number; [|exact Hbad].
  rewrite map_fst_combine; [exact Hin|].
  rewrite (all_numbers_length _ _ Ha). unfold list_len in Hl. lia.
Qed.

Lemma parser_number_error_propagates_witness :
  @formatted_str_to_number spec_dtype_utils (Atom (AStr "fast MHz")) hertz
    hertz_values space
  = Raise (ValueError "could not convert string to float: 'fast'") /\
  exists msg : string,
    ValueError "could not convert string to float: 'fast'" = ValueError msg.
Proof.
  apply (parser_number_error_propagates spec_dtype_utils
           (Atom (AStr "fast MHz")) hertz hertz_values " " "fast MHz"
           ["Hz"; "kHz"; "MHz"]
           [ANum (Int 1); ANum (Float 1e3); ANum (Float 1e6)]
           [Int 1; Float 1e3; Float 1e6] "fast" "MHz");
    try reflexivity.
  simpl. tauto.
Defined.

(** X11.  When the unit of the text is no name of the table, the parser returns
    [None] without looking at the first component: a text that holds no
    number at all is not reported. *)
Theorem parser_unknown_unit_skips_number :
  forall (DU : dtype_utils) (str_val magnitude_names magnitude_values : pyobj)
         (sep s : string) (names : list string) (values : list atom)
         (scalings : list num) (c0 c1 : string),
    validate_string_args str_val "str_val" = Ok [s] ->
    validate_list_of_strings magnitude_names "magnitude_names" = Ok names ->
    list_or_tuple magnitude_values = Some values ->
    all_numbers values = Some scalings ->
    list_len names = list_len values ->
    str_split s sep = Ok [c0; c1] ->
    ~ In c1 names ->
    formatted_str_to_number str_val magnitude_names magnitude_values
      (Atom (AStr sep)) = Ok ANone.
Proof.
  intros DU str_val mn mv sep s names values scalings c0 c1
         Hs Hn Hv Ha Hl Hsplit Hnot.
  rewrite (formatted_str_to_number_checked DU _ _ _ _ _ _ _ _ Hs Hn Hv Ha Hl).
  rewrite Hsplit. cbn [bind].
  change (negb (list_len [c0; c1] =? 2)) with false. cbv iota.
  apply lookup_miss. intros Hin. apply Hnot. exact (combine_names _ _ _ Hin).
Qed.

Lemma parser_unknown_unit_skips_number_witness :
  py_float "fast" = Raise (ValueError "could not convert string to float: 'fast'")
  /\ @formatted_str_to_number spec_dtype_utils (Atom (AStr "fast GHz")) hertz
       hertz_values space = Ok ANone.
Proof.
  split; [reflexivity|].
  apply (parser_unknown_unit_skips_number spec_dtype_utils
           (Atom (AStr "fast GHz")) hertz hertz_values " " "fast GHz"
           ["Hz"; "kHz"; "MHz"]
           [ANum (Int 1); ANum (Float 1e3); ANum (Float 1e6)]
           [Int 1; Float 1e3; Float 1e6] "fast" "GHz");
    try reflexivity.
  simpl. intros [H | [H | [H | []]]]; discriminate.
Defined.

Lemma py_mul_float (k : num) (x : float) (r : num) :
  py_mul k (Float x) = Ok r -> exists f, r = Float f.
Proof.
  unfold py_mul. destruct k as [z|g]; cbn [to_float].
  - destruct (int_to_float z); cbn [bind]; [|discriminate].
    intros H. injection H as <-. eauto.
  - cbn [bind]. intros H. injection H as <-. eauto.
Qed.

Lemma lookup_returns (pairs : list (string * num)) (components : list string)
    (a : atom) :
  lookup pairs components = Ok a -> a = ANone \/ exists f, a = ANum (Float f).
Proof.
  induction pairs as [|[n k] pairs IH]; cbn [lookup].
  - intros H. injection H as <-. left. reflexivity.
  - destruct (seq_getitem _ components 1) as [c1|]; [|discriminate].
    cbn [bind]. destruct (String.eqb n c1); [|exact IH].
    destruct (seq_getitem _ components 0) as [c0|]; [|discriminate].
    cbn [bind]. destruct (py_float c0) as [x|]; [|discriminate]. cbn [bind].
    destruct (py_mul k (Float x)) as [r|] eqn:E; [|discriminate]. cbn [bind].
    intros H. injection H as <-. right.
    destruct (py_mul_float _ _ _ E) as (f & ->). eauto.
Qed.

(** X12.  Whatever the arguments are, what the parser returns is [None] or a
    float, never an int: an int scaling is multiplied by a float. *)
Theorem parser_returns_float_or_None :
  forall (DU : dtype_utils)
         (str_val magnitude_names magnitude_values separator : pyobj) (a : atom),
    formatted_str_to_number str_val magnitude_names magnitude_values separator
    = Ok a ->
    a = ANone \/ exists f : float, a = ANum (Float f).
Proof.
  intros DU str_val mn mv separator a. unfold formatted_str_to_number.
  destruct (validate_string_args str_val "str_val") as [cleaned|];
    [|discriminate]. cbn [bind].
  destruct (unpack1 cleaned) as [s|]; [|discriminate]. cbn [bind].
  destruct (validate_list_of_strings mn "magnitude_names") as [names|];
    [|discriminate]. cbn [bind].
  destruct separator as [[| |sep]| | | | |]; try discriminate.
  destruct (list_or_tuple mv) as [values|]; [|discriminate].
  destruct (all_numbers values) as [scalings|]; [|discriminate].
  destruct (negb (list_len names =? list_len values)); [discriminate|].
  destruct (str_split s sep) as [components|]; [|discriminate]. cbn [bind].
  destruct (negb (list_len components =? 2)); [discriminate|].
  apply lookup_returns.
Qed.

Lemma parser_returns_float_or_None_witness :
  ANum (Float 120) = ANone \/ exists f : float, ANum (Float 120) = ANum (Float f).
Proof.
  apply (parser_returns_float_or_None spec_dtype_utils (Atom (AStr "2 mins"))
           sec_mins one_sixty space).
  vm_compute. reflexivity.
Defined.

(** X13.  With the text and the names accepted, the parser checks its other
    arguments in this order, before it looks at the text: a separator that
    is not a string, values that are not all numbers and lengths that
    differ each raise their own error. *)
Theorem parser_argument_errors :
  forall (DU : dtype_utils)
         (str_val magnitude_names magnitude_values separator : pyobj)
         (s : string) (names : list string),
    validate_string_args str_val "str_val" = Ok [s] ->
    validate_list_of_strings magnitude_names "magnitude_names" = Ok names ->
    ((forall sep : string, separator <> Atom (AStr sep)) ->
     formatted_str_to_number str_val magnitude_names magnitude_values separator
     = Raise (TypeError "separator must be a string")) /\
    (forall (sep : string) (values : list atom),
        separator = Atom (AStr sep) ->
        list_or_tuple magnitude_values = Some values ->
        all_numbers values = None ->
        formatted_str_to_number str_val magnitude_names magnitude_values
          separator
        = Raise (TypeError "magnitude_values should contain numbers")) /\
    (forall (sep : string) (values : list atom) (scalings : list num),
        separator = Atom (AStr sep) ->
        list_or_tuple magnitude_values = Some values ->
        all_numbers values = Some scalings ->
        list_len names <> list_len values ->
        formatted_str_to_number str_val magnitude_names magnitude_values
          separator
        = Raise (ValueError
            "magnitude_names and magnitude_values should be of the same length")).
Proof.
  intros DU str_val mn mv separator s names Hs Hn.
  unfold formatted_str_to_number. rewrite Hs. cbn [unpack1 bind].
  rewrite Hn. cbn [bind]. split; [|split].
  - intros Hsep.
    destruct separator as [[| |sep]| | | | |]; try reflexivity.
    exfalso. exact (Hsep sep eq_refl).
  - intros sep values -> -> ->. reflexivity.
  - intros sep values scalings -> -> -> Hne.
    destruct (Z.eqb_spec (list_len names) (list_len values));
      [contradiction | reflexivity].
Qed.

Lemma parser_argument_errors_witness :
  @formatted_str_to_number spec_dtype_utils (Atom (AStr "2 mins")) sec_mins
    (Atom ANone) (Atom (ANum (Int 32)))
  = Raise (TypeError "separator must be a string") /\
  @formatted_str_to_number spec_dtype_utils (Atom (AStr "2 mins")) sec_mins
    (PyList [ANum (Int 1); AStr "60"]) space
  = Raise (TypeError "magnitude_values should contain numbers") /\
  @formatted_str_to_number spec_dtype_utils (Atom (AStr "2 mins")) sec_mins
    (PyList [ANum (Int 1)]) space
  = Raise (ValueError
      "magnitude_names and magnitude_values should be of the same length").
Proof.
  split; [|split].
  - apply (parser_argument_errors spec_dtype_utils (Atom (AStr "2 mins"))
             sec_mins (Atom ANone) (Atom (ANum (Int 32))) "2 mins"
             ["sec"; "mins"] eq_refl eq_refl).
    intros sep. discriminate.
  - apply (parser_argument_errors spec_dtype_utils (Atom (AStr "2 mins"))
             sec_mins (PyList [ANum (Int 1); AStr "60"]) space "2 mins"
             ["sec"; "mins"] eq_refl eq_refl)
      with (sep := " ") (values := [ANum (Int 1); AStr "60"]); reflexivity.
  - apply (parser_argument_errors spec_dtype_utils (Atom (AStr "2 mins"))
             sec_mins (PyList [ANum (Int 1)]) space "2 mins"
             ["sec"; "mins"] eq_refl eq_refl)
      with (sep := " ") (values := [ANum (Int 1)]) (scalings := [Int 1]);
      [reflexivity | reflexivity | reflexivity | discriminate].
Defined.

(** ** A unit name that holds a space *)

Lemma split_go_nonempty (sep s : string) :
  forall (skip : nat) (cur : string),
    (1 <= List.length (split_go sep s skip cur))%nat.
Proof.
  induction s as [|x s IH]; intros skip cur; cbn [split_go].
  - simpl. lia.
  - destruct skip; [|apply IH].
    destruct (is_prefix sep (String x s)); [simpl; lia | apply IH].
Qed.

Lemma split_go_has_sep (c : ascii) (b : string) :
  forall cur : string,
    lacks c b = false ->
    (2 <= List.length (split_go (String c "") b 0 cur))%nat.
Proof.
  induction b as [|x b IH]; intros cur H; [discriminate|].
  cbn [split_go is_prefix]. cbn [lacks] in H.
  destruct (Ascii.eqb c x); cbn [andb negb] in *.
  - cbn [List.length String.length Nat.sub].
    pose proof (split_go_nonempty (String c "") b 0 ""). simpl. lia.
  - apply IH. exact H.
Qed.

Lemma format_quantity_renders (DU : dtype_utils) (value : num)
    (unit_names factors : pyobj) (fs : list num) (names : list string)
    (decimals : Z) (i : nat) (f : num) (name : string) (q : float) :
  holds_numbers factors fs ->
  py_len unit_names = Ok (list_len fs) ->
  validate_list_of_strings unit_names "unit_names" = Ok names ->
  select_index value factors = Ok (Z.of_nat i) ->
  nth_error fs i = Some f -> nth_error names i = Some name ->
  py_truediv value f = Ok q ->
  format_quantity value unit_names factors decimals
  = Ok (format2 (float_str (np_round q decimals)) name).
Proof.
  intros Hh Hlen Hu Hsel Hf Hname Hq.
  rewrite (format_quantity_checked DU _ _ _ _ _ _ Hlen
             (holds_numbers_len _ _ Hh) Hu).
  rewrite Hsel. cbn [bind]. unfold render.
  rewrite (holds_numbers_getitem _ _ _ _ Hh Hf). cbn [bind py_div].
  rewrite Hq. cbn [bind]. rewrite (seq_getitem_nth _ _ _ _ Hname).
  reflexivity.
Qed.

(** X14.  When the name of the selected unit holds a space, the text that
    [format_quantity] returns is refused by the parser with its format
    error: the text splits into more than two components. *)
Theorem spaced_unit_breaks_round_trip :
  forall (DU : dtype_utils) (value : num) (unit_names factors : pyobj)
         (fs : list num) (names : list string) (decimals : Z)
         (i : nat) (f : num) (name : string) (q : float),
    factors = PyList (map ANum fs) \/ factors = PyTuple (map ANum fs) ->
    py_len unit_names = Ok (list_len fs) ->
    validate_list_of_strings unit_names "unit_names" = Ok names ->
    validate_list_of_strings unit_names "magnitude_names" = Ok names ->
    list_len names = list_len fs ->
    select_index value factors = Ok (Z.of_nat i) ->
    nth_error fs i = Some f ->
    nth_error names i = Some name ->
    lacks " " name = false ->
    py_truediv value f = Ok q ->
    validate_string_args
      (Atom (AStr (format2 (float_str (np_round q decimals)) name))) "str_val"
    = Ok [format2 (float_str (np_round q decimals)) name] ->
    round_trip value unit_names factors decimals = Raise format_error.
Proof.
  intros DU value unit_names factors fs names decimals i f name q
         Hfs Hlen Hu Hm Hnl Hsel Hf Hname Hspace Hq Hs.
  assert (Hh : holds_numbers factors fs) by (unfold holds_numbers; tauto).
  unfold round_trip.
  rewrite (format_quantity_renders DU _ _ _ _ _ _ _ _ _ _
             Hh Hlen Hu Hsel Hf Hname Hq). cbn [bind].
  assert (Hlt : list_or_tuple factors = Some (map ANum fs))
    by (destruct Hfs as [-> | ->]; reflexivity).
  assert (Hnl' : list_len names = list_len (map ANum fs))
    by (unfold list_len in *; now rewrite length_map).
  rewrite (formatted_str_to_number_checked DU _ _ _ _ _ _ _ _
             Hs Hm Hlt (all_numbers_map fs) Hnl').
  unfold str_split, format2.
  change (float_str (np_round q decimals) ++ " " ++ name)
    with (float_str (np_round q decimals) ++ String " " name).
  rewrite (split_go_first " " _ name "" (lacks_float_str _)). cbn [bind].
  pose proof (split_go_has_sep " " name "" Hspace) as Hlen2.
  destruct (Z.eqb_spec
              (list_len ((string_rev "" ++ float_str (np_round q decimals))
                           :: split_go " " name 0 "")) 2) as [E|E].
  - unfold list_len in E. simpl List.length in E. lia.
  - reflexivity.
Qed.

Lemma spaced_unit_breaks_round_trip_witness :
  @format_quantity spec_dtype_utils (Int 90)
    (PyList [AStr "sec"; AStr "min s"]) one_sixty 2 = Ok "1.5 min s" /\
  @round_trip spec_dtype_utils (Int 90) (PyList [AStr "sec"; AStr "min s"])
    one_sixty 2 = Raise format_error.
Proof.
  split; [vm_compute; reflexivity|].
  apply (spaced_unit_breaks_round_trip spec_dtype_utils (Int 90)
           (PyList [AStr "sec"; AStr "min s"]) one_sixty [Int 1; Int 60]
           ["sec"; "min s"] 2 1%nat (Int 60) "min s" 1.5%float);
    try reflexivity.
  left. reflexivity.
Defined.

Lemma get_time_stamp_fields (t : struct_time) :
  get_time_stamp t
  = fixed_digits 4 (tm_year t) ++ "_" ++ fixed_digits 2 (tm_mon t) ++ "_"
      ++ fixed_digits 2 (tm_mday t) ++ "-" ++ fixed_digits 2 (tm_hour t) ++ "_"
      ++ fixed_digits 2 (tm_min t) ++ "_" ++ fixed_digits 2 (tm_sec t) ++ "".
Proof. reflexivity. Qed.

Lemma digit_char_compare (x y : Z) :
  0 <= x < 10 -> 0 <= y < 10 ->
  Ascii.compare (digit_char x) (digit_char y) = (x ?= y).
Proof.
  intros Hx Hy.
  assert (Ex : x = 0 \/ x = 1 \/ x = 2 \/ x = 3 \/ x = 4 \/ x = 5 \/ x = 6
               \/ x = 7 \/ x = 8 \/ x = 9) by lia.
  assert (Ey : y = 0 \/ y = 1 \/ y = 2 \/ y = 3 \/ y = 4 \/ y = 5 \/ y = 6
               \/ y = 7 \/ y = 8 \/ y = 9) by lia.
  repeat (destruct Ex as [-> | Ex]); subst;
    repeat (destruct Ey as [-> | Ey]); subst; reflexivity.
Qed.

Lemma compare_by_digits (a b : Z) (c : comparison) :
  match a / 10 ?= b / 10 with
  | Eq => match a mod 10 ?= b mod 10 with Eq => c | ne => ne end
  | ne => ne
  end
  = match a ?= b with Eq => c | ne => ne end.
Proof.
  pose proof (Z.div_mod a 10 ltac:(lia)).
  pose proof (Z.div_mod b 10 ltac:(lia)).
  pose proof (Z.mod_pos_bound a 10 ltac:(lia)).
  pose proof (Z.mod_pos_bound b 10 ltac:(lia)).
  destruct (Z.compare_spec (a / 10) (b / 10));
    destruct (Z.compare_spec (a mod 10) (b mod 10));
    destruct (Z.compare_spec a b); try reflexivity; lia.
Qed.

Lemma fixed_digits_compare (w : nat) :
  forall (a b : Z) (s t : string),
    0 <= a < 10 ^ Z.of_nat w -> 0 <= b < 10 ^ Z.of_nat w ->
    String.compare (fixed_digits w a ++ s) (fixed_digits w b ++ t)
    = match a ?= b with Eq => String.compare s t | ne => ne end.
Proof.
  induction w as [|w IH]; intros a b s t Ha Hb.
  - simpl in Ha, Hb. assert (a = 0) by lia. assert (b = 0) by lia. subst.
    reflexivity.
  - rewrite Nat2Z.inj_succ, Z.pow_succ_r in Ha, Hb by lia.
    cbn [fixed_digits]. rewrite !string_app_assoc.
    rewrite IH by (split; [apply Z.div_pos; lia
                          | apply Z.div_lt_upper_bound; lia]).
    cbn [append String.compare].
    rewrite digit_char_compare by (apply Z.mod_pos_bound; lia).
    apply compare_by_digits.
Qed.

Lemma string_length_app (a b : string) :
  String.length (a ++ b) = (String.length a + String.length b)%nat.
Proof. induction a as [|x a IH]; simpl; [reflexivity | now rewrite IH]. Qed.

Lemma fixed_digits_length (w : nat) :
  forall n : Z, String.length (fixed_digits w n) = w.
Proof.
  induction w as [|w IH]; intros n; cbn [fixed_digits]; [reflexivity|].
  rewrite string_length_app, IH. simpl. lia.
Qed.

Lemma lex_compare_eq (xs : list Z) :
  forall ys : list Z, lex_compare xs ys = Eq -> xs = ys.
Proof.
  induction xs as [|x xs IH]; intros [|y ys] H; simpl in H;
    try discriminate; [reflexivity|].
  destruct (Z.compare_spec x y); try discriminate.
  subst. f_equal. apply IH. exact H.
Qed.

Lemma string_compare_refl (s : string) : String.compare s s = Eq.
Proof.
  induction s as [|c s IH]; [reflexivity|]. simpl.
  unfold Ascii.compare. rewrite N.compare_refl. exact IH.
Qed.

(** X15.  Time stamps sort as the times do: for two local times in years of
    four digits, comparing the stamps as strings gives the order of the
    times; so distinct times have distinct stamps.  A stamp has 19
    characters. *)
Theorem time_stamps_sort_by_time :
  forall a b : struct_time,
    valid_time a -> valid_time b ->
    String.compare (get_time_stamp a) (get_time_stamp b)
    = lex_compare (time_fields a) (time_fields b) /\
    (get_time_stamp a = get_time_stamp b -> a = b) /\
    String.length (get_time_stamp a) = 19%nat.
Proof.
  intros a b Ha Hb.
  assert (Hcmp : String.compare (get_time_stamp a) (get_time_stamp b)
                 = lex_compare (time_fields a) (time_fields b)).
  { destruct Ha as (Ya & Ma & Da & Ha & Mia & Sa).
    destruct Hb as (Yb & Mb & Db & Hb & Mib & Sb).
    rewrite !get_time_stamp_fields. unfold time_fields. cbn [lex_compare].
    rewrite fixed_digits_compare by (simpl; lia).
    cbn [append String.compare]. change (Ascii.compare "_" "_") with Eq.
    cbv iota.
    rewrite fixed_digits_compare by (simpl; lia).
    cbn [append String.compare]. change (Ascii.compare "_" "_") with Eq.
    cbv iota.
    rewrite fixed_digits_compare by (simpl; lia).
    cbn [append String.compare]. change (Ascii.compare "-" "-") with Eq.
    cbv iota.
    rewrite fixed_digits_compare by (simpl; lia).
    cbn [append String.compare]. change (Ascii.compare "_" "_") with Eq.
    cbv iota.
    rewrite fixed_digits_compare by (simpl; lia).
    cbn [append String.compare]. change (Ascii.compare "_" "_") with Eq.
    cbv iota.
    rewrite fixed_digits_compare by (simpl; lia).
    reflexivity. }
  split; [exact Hcmp|]. split.
  - intros E. rewrite E, string_compare_refl in Hcmp. symmetry in Hcmp.
    apply lex_compare_eq in Hcmp. unfold time_fields in Hcmp.
    destruct a, b. simpl in Hcmp. injection Hcmp as -> -> -> -> -> ->.
    reflexivity.
  - rewrite get_time_stamp_fields.
    rewrite !string_length_app, !fixed_digits_length. reflexivity.
Qed.

Lemma time_stamps_sort_by_time_witness :
  get_time_stamp {| tm_year := 2019; tm_mon := 7; tm_mday := 12;
                    tm_hour := 9; tm_min := 30; tm_sec := 5 |}
  = "2019_07_12-09_30_05" /\
  String.compare
    (get_time_stamp {| tm_year := 2019; tm_mon := 7; tm_mday := 12;
                       tm_hour := 9; tm_min := 30; tm_sec := 5 |})
    (get_time_stamp {| tm_year := 2019; tm_mon := 10; tm_mday := 1;
                       tm_hour := 0; tm_min := 0; tm_sec := 0 |})
  = Lt.
Proof.
  split; [reflexivity|].
  destruct (time_stamps_sort_by_time
              {| tm_year := 2019; tm_mon := 7; tm_mday := 12;
                 tm_hour := 9; tm_min := 30; tm_sec := 5 |}
              {| tm_year := 2019; tm_mon := 10; tm_mday := 1;
                 tm_hour := 0; tm_min := 0; tm_sec := 0 |})
    as [H _]; [repeat split; simpl; lia | repeat split; simpl; lia |].
  rewrite H. reflexivity.
Defined.

(** X16.  Over SSH, that is with SSH_CLIENT or SSH_TTY among the environment
    variables whatever their values, [file_dialog] with valid arguments
    shows no dialog and warns of nothing: it prompts once and returns the
    line typed, also when a Qt is installed. *)
Theorem file_dialog_over_ssh :
  forall (w : desktop) (file_filter caption : pyobj),
    None_or_str file_filter = true -> None_or_str caption = true ->
    (exists value, In ("SSH_CLIENT", value) (environ w)
                   \/ In ("SSH_TTY", value) (environ w)) ->
    file_dialog w file_filter caption = ([Prompted text_prompt], Ok (typed w)).
Proof.
  intros w file_filter caption Hf Hc (value & Hin).
  unfold file_dialog. cbn [forallb]. rewrite Hf, Hc. cbn [andb negb].
  assert (Hssh : check_ssh (environ w) = true).
  { unfold check_ssh, in_environ. apply orb_true_iff.
    destruct Hin as [H | H]; [left | right];
      apply existsb_exists; eexists; (split; [exact H | reflexivity]). }
  rewrite Hssh. reflexivity.
Qed.

Lemma file_dialog_over_ssh_witness :
  file_dialog {| environ := [("HOME", "/root"); ("SSH_TTY", "")];
                 PyQt5_dialog := Some (fun _ _ => ("/data/a.h5", "H5 file (*.h5)"));
                 PyQt4_dialog := None;
                 typed := "/data/b.h5" |}
    (Atom (AStr "H5 file (*.h5)")) (Atom (AStr "Select File"))
  = ([Prompted text_prompt], Ok "/data/b.h5").
Proof.
  apply (file_dialog_over_ssh
           {| environ := [("HOME", "/root"); ("SSH_TTY", "")];
              PyQt5_dialog := Some (fun _ _ => ("/data/a.h5", "H5 file (*.h5)"));
              PyQt4_dialog := None;
              typed := "/data/b.h5" |});
    [reflexivity | reflexivity |].
  exists "". right. right. left. reflexivity.
Defined.

(** X17.  Away from SSH, when PyQt5 cannot be imported, [file_dialog] ends in
    the TypeError of its own call of [warn], whose second argument is a
    text: neither the PyQt4 dialog nor the text prompt is reached, whether
    PyQt4 is installed or not. *)
Theorem file_dialog_without_PyQt5 :
  forall (w : desktop) (file_filter caption : pyobj),
    None_or_str file_filter = true -> None_or_str caption = true ->
    check_ssh (environ w) = false ->
    PyQt5_dialog w = None ->
    file_dialog w file_filter caption
    = ([], Raise (TypeError "category must be a Warning subclass, not 'str'")).
Proof.
  intros w file_filter caption Hf Hc Hssh H5.
  unfold file_dialog. cbn [forallb]. rewrite Hf, Hc, Hssh, H5. reflexivity.
Qed.

Lemma file_dialog_without_PyQt5_witness :
  file_dialog {| environ := [("HOME", "/root")];
                 PyQt5_dialog := None;
                 PyQt4_dialog := Some (fun _ _ => "/data/a.h5");
                 typed := "/data/b.h5" |}
    (Atom (AStr "H5 file (*.h5)")) (Atom (AStr "Select File"))
  = ([], Raise (TypeError "category must be a Warning subclass, not 'str'")).
Proof.
  apply (file_dialog_without_PyQt5
           {| environ := [("HOME", "/root")];
              PyQt5_dialog := None;
              PyQt4_dialog := Some (fun _ _ => "/data/a.h5");
              typed := "/data/b.h5" |}); reflexivity.
Defined.

(** X18.  Whatever it finds around it, [file_dialog] never shows the PyQt4
    dialog and never issues a warning; when it prompts, it is over SSH. *)
Theorem file_dialog_events :
  forall (w : desktop) (file_filter caption : pyobj) (ev : event),
    In ev (fst (file_dialog w file_filter caption)) ->
    ev = DialogShown "PyQt5" caption file_filter
    \/ (ev = Prompted text_prompt /\ check_ssh (environ w) = true).
Proof.
  intros w file_filter caption ev. unfold file_dialog.
  destruct (negb (forallb None_or_str [file_filter; caption]));
    [intros []|].
  destruct (check_ssh (environ w)) eqn:Hssh; cbn [negb].
  - intros [<- | []]. right. split; reflexivity.
  - destruct (PyQt5_dialog w).
    + intros [<- | []]. left. reflexivity.
    + intros [].
Qed.

Lemma file_dialog_events_witness :
  DialogShown "PyQt5" (Atom (AStr "Select File")) (Atom (AStr "H5 file (*.h5)"))
  = DialogShown "PyQt5" (Atom (AStr "Select File")) (Atom (AStr "H5 file (*.h5)"))
  \/ (DialogShown "PyQt5" (Atom (AStr "Select File"))
        (Atom (AStr "H5 file (*.h5)")) = Prompted text_prompt
      /\ check_ssh [("HOME", "/root")] = true).
Proof.
  apply (file_dialog_events
           {| environ := [("HOME", "/root")];
              PyQt5_dialog := Some (fun _ _ => ("/data/a.h5", "H5 file (*.h5)"));
              PyQt4_dialog := Some (fun _ _ => "/data/a.h5");
              typed := "/data/b.h5" |}
           (Atom (AStr "H5 file (*.h5)")) (Atom (AStr "Select File"))).
  left. reflexivity.
Defined.
